(** * A shallow embedding of the transpiler's type classifier and JSON Schema builder

    The development follows the two source files of the repository:

    - [src/types.ts]: the predicates that classify nodes of the TypeScript
      type graph (module [Types] below);
    - [src/modules/jsonSchema.ts]: the constructors of JSON Schema fragments
      (module [JsonSchemaModule] below).

    JavaScript values are modelled as the code uses them: a flag word is an
    integer on which [&] works after the 32-bit conversion, an absent property
    is [None], an object used as a dictionary is the list of its own
    properties in the order the object lists them, and a [throw] is the second constructor of a
    result type. *)

From Stdlib Require Import ZArith List String Ascii Bool Lia Permutation.
From Stdlib Require Import Floats.SpecFloat.
Import ListNotations.

Local Open Scope string_scope.
Local Open Scope Z_scope.

(* ================================================================= *)
(** ** JavaScript primitives used by the source *)

Module Js.

(** A JavaScript number: an IEEE 754 double. *)
Definition number : Type := spec_float.

(** [ToInt32] on an integral number: reduction modulo 2^32 into the signed
    range, the conversion [&] applies to both operands. *)
Definition ToInt32 (z : Z) : Z := (z + 2 ^ 31) mod 2 ^ 32 - 2 ^ 31.

(** [a & b] *)
Definition band (a b : Z) : Z := Z.land (ToInt32 a) (ToInt32 b).

(** [a & b] where [a] is read from a property that may be absent:
    [undefined] converts to 0. *)
Definition band_opt (a : option Z) (b : Z) : Z :=
  band (match a with Some z => z | None => 0 end) b.

(** Truthiness of a number that is not NaN. *)
Definition truthy (z : Z) : bool := negb (z =? 0).

(** [Boolean(z)] *)
Definition Boolean (z : Z) : bool := truthy z.

(** [a || b] on numbers: the first operand when it is truthy. *)
Definition or (a b : Z) : Z := if truthy a then a else b.

(** [a && b] on numbers: the first operand when it is falsy. *)
Definition and (a b : Z) : Z := if truthy a then b else a.

(** An exception object: its constructor name and its message. *)
Record Error : Type := mkError { error_name : string; message : string }.

(** The outcome of a call that may throw. *)
Inductive result (A : Type) : Type :=
| Return (a : A)
| Throw (e : Error).
Arguments Return {A} a.
Arguments Throw {A} e.

(** The own property [k] of an object, from the list of its own properties
    in the order the object lists them. *)
Fixpoint get {V : Type} (k : string) (o : list (string * V)) : option V :=
  match o with
  | [] => None
  | (k', v) :: rest => if String.eqb k k' then Some v else get k rest
  end.

(** [k] is an own key of the object. *)
Definition has {V : Type} (k : string) (o : list (string * V)) : bool :=
  match get k o with Some _ => true | None => false end.

(** The value of a decimal digit. *)
Definition digit (c : ascii) : option N :=
  let n := N_of_ascii c in
  if ((48 <=? n) && (n <=? 57))%N then Some (n - 48)%N else None.

(** The number a string of decimal digits denotes, continuing from [acc]. *)
Fixpoint decimal (acc : N) (s : string) : option N :=
  match s with
  | EmptyString => Some acc
  | String c s' =>
      match digit c with
      | Some d => decimal (10 * acc + d)%N s'
      | None => None
      end
  end.

(** An array index: a key that is the canonical decimal numeral, without
    sign and without leading zero, of an integer from 0 to 2^32 - 2.  An
    object lists its own keys that are array indices first, in ascending
    numeric order, and its other string keys after them, in creation
    order. *)
Definition arrayIndex (k : string) : option N :=
  match k with
  | EmptyString => None
  | String c rest =>
      if Ascii.eqb c "0" && negb (String.eqb rest EmptyString) then None
      else
        match decimal 0 k with
        | Some i => if (i <? 4294967295)%N then Some i else None
        | None => None
        end
  end.

(** The new value of a key the object has: the key keeps its place. *)
Fixpoint replace {V : Type} (k : string) (v : V) (o : list (string * V))
  : list (string * V) :=
  match o with
  | [] => []
  | (k', v') :: rest =>
      if String.eqb k k' then (k', v) :: rest else (k', v') :: replace k v rest
  end.

(** A new key that is the array index [i]: it goes before the first key
    that is a greater array index or not an array index. *)
Fixpoint insertIndex {V : Type} (i : N) (k : string) (v : V)
    (o : list (string * V)) : list (string * V) :=
  match o with
  | [] => [(k, v)]
  | (k', v') :: rest =>
      match arrayIndex k' with
      | Some j =>
          if (i <? j)%N then (k, v) :: (k', v') :: rest
          else (k', v') :: insertIndex i k v rest
      | None => (k, v) :: (k', v') :: rest
      end
  end.

(** Assignment to an own data property: an existing key keeps its place and
    takes the new value; a new key is created, among the array indices when
    it is one and after all the other keys when it is not.  The list is the
    order in which the object lists its own keys. *)
Definition put {V : Type} (k : string) (v : V) (o : list (string * V))
  : list (string * V) :=
  if has k o then replace k v o
  else
    match arrayIndex k with
    | Some i => insertIndex i k v o
    | None => (o ++ [(k, v)])%list
    end.

End Js.

(* ================================================================= *)
(** ** The part of the TypeScript compiler API the source reads *)

(** [ts.TypeFlags], the members the classifier tests, with the values the
    declaration file of the [typescript] package gives them since [BigInt]
    and [BigIntLiteral] exist.  Each is a single bit.  Outside the examples,
    only the position of [Undefined] (bit 15) is used by a proof. *)
Module TypeFlags.
Definition Any : Z := 1.
Definition String : Z := 4.
Definition Number : Z := 8.
Definition Boolean : Z := 16.
Definition BigInt : Z := 64.
Definition StringLiteral : Z := 128.
Definition NumberLiteral : Z := 256.
Definition BooleanLiteral : Z := 512.
Definition EnumLiteral : Z := 1024.
Definition BigIntLiteral : Z := 2048.
Definition Void : Z := 16384.
Definition Undefined : Z := 32768.
Definition Null : Z := 65536.
Definition Never : Z := 131072.
Definition TypeParameter : Z := 262144.
Definition Object : Z := 524288.
Definition Union : Z := 1048576.
Definition Intersection : Z := 2097152.
End TypeFlags.

(** [ts.ObjectFlags], likewise. *)
Module ObjectFlags.
Definition Reference : Z := 4.
Definition Tuple : Z := 8.
End ObjectFlags.

(** [ts.SymbolFlags], likewise. *)
Module SymbolFlags.
Definition Function : Z := 16.
Definition Method : Z := 8192.
Definition GetAccessor : Z := 32768.
Definition Prototype : Z := 4194304.
Definition Optional : Z := 16777216.
End SymbolFlags.

(** [ts.SyntaxKind]: the declaration and statement kinds found at the top
    level of a file; any other member of the enumeration is kept by its
    number. *)
Inductive SyntaxKind : Type :=
| VariableStatement
| FunctionDeclaration
| ClassDeclaration
| InterfaceDeclaration
| TypeAliasDeclaration
| EnumDeclaration
| ModuleDeclaration
| ImportDeclaration
| ExportAssignment
| ExportDeclaration
| EndOfFileToken
| OtherKind (code : Z).

(** [ts.Node], reduced to the field the guards of the API compare. *)
Record Node : Type := mkNode { kind : SyntaxKind }.

(** [a === b] on two members of [ts.SyntaxKind]. *)
Definition kind_eqb (a b : SyntaxKind) : bool :=
  match a, b with
  | VariableStatement, VariableStatement => true
  | FunctionDeclaration, FunctionDeclaration => true
  | ClassDeclaration, ClassDeclaration => true
  | InterfaceDeclaration, InterfaceDeclaration => true
  | TypeAliasDeclaration, TypeAliasDeclaration => true
  | EnumDeclaration, EnumDeclaration => true
  | ModuleDeclaration, ModuleDeclaration => true
  | ImportDeclaration, ImportDeclaration => true
  | ExportAssignment, ExportAssignment => true
  | ExportDeclaration, ExportDeclaration => true
  | EndOfFileToken, EndOfFileToken => true
  | OtherKind x, OtherKind y => Z.eqb x y
  | _, _ => false
  end.

(** A [ts.Node] seen with its [modifiers] property: an array of modifier
    nodes, absent on a node that was written without any. *)
Record ModifiedNode : Type := mkModifiedNode {
  node_kind : SyntaxKind;
  modifiers : option (list Node)
}.

(** [ts.Symbol] *)
Record Symbol : Type := mkSymbol {
  symbol_flags : Z;
  escapedName : string
}.

(** [ts.PseudoBigInt] *)
Record PseudoBigInt : Type := mkPseudoBigInt {
  negative : bool;
  base10Value : string
}.

(** The [value] of a [ts.LiteralType]. *)
Inductive LiteralValue : Type :=
| StringValue (s : string)
| NumberValue (n : Js.number)
| BigIntValue (b : PseudoBigInt).

(** The generic type a [ts.TypeReference] instantiates; of it the source
    reads [objectFlags] only. *)
Record GenericType : Type := mkGenericType { target_objectFlags : Z }.

(** [ts.Type] with the properties the classifier reads.  A property that an
    object of the checker may lack is optional: [objectFlags] exists on object
    types, [target] on references, [value] on literal types other than the
    two boolean ones, [intrinsicName] on intrinsic types. *)
Record TsType : Type := mkTsType {
  flags : Z;
  objectFlags : option Z;
  symbol : option Symbol;
  target : option GenericType;
  value : option LiteralValue;
  intrinsicName : option string
}.

(** The same node with another flag word. *)
Definition withFlags (t : TsType) (f : Z) : TsType :=
  mkTsType f (objectFlags t) (symbol t) (target t) (value t) (intrinsicName t).

(* ================================================================= *)
(** ** [src/types.ts] *)

Module Types.

(** [ts.isInterfaceDeclaration] and its siblings compare [node.kind]. *)
Definition isInterfaceDeclaration (node : Node) : bool :=
  match kind node with InterfaceDeclaration => true | _ => false end.
Definition isTypeAliasDeclaration (node : Node) : bool :=
  match kind node with TypeAliasDeclaration => true | _ => false end.
Definition isEnumDeclaration (node : Node) : bool :=
  match kind node with EnumDeclaration => true | _ => false end.
Definition isClassDeclaration (node : Node) : bool :=
  match kind node with ClassDeclaration => true | _ => false end.

Definition isTranspilable (node : Node) : bool :=
  isInterfaceDeclaration node
  || isTypeAliasDeclaration node
  || isEnumDeclaration node
  || isClassDeclaration node.

Definition isLiteral (type : TsType) : bool :=
  let check :=
    Js.or (Js.or (Js.band (flags type) TypeFlags.StringLiteral)
                 (Js.band (flags type) TypeFlags.NumberLiteral))
          (Js.band (flags type) TypeFlags.BooleanLiteral) in
  Js.Boolean check.

Definition isBigIntLiteral (type : TsType) : bool :=
  Js.Boolean (Js.band (flags type) TypeFlags.BigIntLiteral).

Definition isPrimitive (type : TsType) : bool :=
  let flags := flags type in
  let check :=
    Js.or (Js.or (Js.or (Js.or (Js.or (Js.or (Js.or (Js.or
      (Js.band flags TypeFlags.Any)
      (Js.band flags TypeFlags.String))
      (Js.band flags TypeFlags.Number))
      (Js.band flags TypeFlags.BigInt))
      (Js.band flags TypeFlags.Boolean))
      (Js.band flags TypeFlags.Void))
      (Js.band flags TypeFlags.Undefined))
      (Js.band flags TypeFlags.Null))
      (Js.band flags TypeFlags.Never) in
  Js.Boolean check.

Definition isDefined (type : TsType) : bool :=
  negb (Js.Boolean (Js.band (flags type) TypeFlags.Undefined)).

(** [x === undefined] on an optional property. *)
Definition is_undefined {A : Type} (x : option A) : bool :=
  match x with None => true | Some _ => false end.

(** [x === 'lit'] on an optional string property. *)
Definition strict_eq_string (x : option string) (lit : string) : bool :=
  match x with Some s => String.eqb s lit | None => false end.

Definition isLiteralTrue (type : TsType) : bool :=
  is_undefined (value type) && strict_eq_string (intrinsicName type) "true".

Definition isLiteralFalse (type : TsType) : bool :=
  is_undefined (value type) && strict_eq_string (intrinsicName type) "false".

Definition isUnionBoolean (types : list TsType) : bool :=
  if negb (Nat.eqb (List.length types) 2) then false
  else
    match types with
    | typeA :: typeB :: _ =>
        if negb (isLiteral typeA) || negb (isLiteral typeB) then false
        else (isLiteralTrue typeA && isLiteralFalse typeB)
             || (isLiteralTrue typeB && isLiteralFalse typeA)
    | _ => false
    end.

Definition isObject (type : TsType) : bool :=
  Js.Boolean (Js.band (flags type) TypeFlags.Object).

Definition isReference (type : TsType) : bool :=
  Js.Boolean (Js.band_opt (objectFlags type) ObjectFlags.Reference).

Definition isArray (type : TsType) : bool :=
  isObject type && isReference type
  && match symbol type with
     | Some s => String.eqb (escapedName s) "Array"
     | None => false
     end.

(** Reading [type.target.objectFlags] throws a [TypeError] when [target] is
    absent; the read happens only after the two guards have passed. *)
Definition isTuple (type : TsType) : Js.result bool :=
  if isObject type && isReference type then
    match target type with
    | Some tg =>
        Js.Return (Js.Boolean (Js.band (target_objectFlags tg) ObjectFlags.Tuple))
    | None =>
        Js.Throw (Js.mkError "TypeError"
                    "Cannot read property 'objectFlags' of undefined")
    end
  else Js.Return false.

Definition isEnum (type : TsType) : bool :=
  Js.Boolean (Js.and (Js.band (flags type) TypeFlags.EnumLiteral)
                     (Js.band (flags type) TypeFlags.Union)).

Definition isUndefined (type : TsType) : bool :=
  Js.Boolean (Js.band (flags type) TypeFlags.Undefined).

Definition isUnion (type : TsType) : bool :=
  Js.Boolean (Js.band (flags type) TypeFlags.Union).

Definition isIntersection (type : TsType) : bool :=
  Js.Boolean (Js.band (flags type) TypeFlags.Intersection).

(** [object.symbol != null && (... || ...)]: with no symbol the conjunction is
    [false] and the flags are not read. *)
Definition isFunctionLike (object : TsType) : bool :=
  match symbol object with
  | None => false
  | Some s =>
      let check :=
        Js.or (Js.band (symbol_flags s) SymbolFlags.Function)
              (Js.band (symbol_flags s) SymbolFlags.Method) in
      Js.Boolean check
  end.

Definition isOptional (symbol : Symbol) : bool :=
  Js.Boolean (Js.band (symbol_flags symbol) SymbolFlags.Optional).

Definition isPrototype (symbol : Symbol) : bool :=
  Js.Boolean (Js.band (symbol_flags symbol) SymbolFlags.Prototype).

Definition isGetAccessor (symbol : Symbol) : bool :=
  Js.Boolean (Js.band (symbol_flags symbol) SymbolFlags.GetAccessor).

(** [Boolean(node.modifiers)]: an array is truthy, even an empty one. *)
Definition hasModifiers (node : ModifiedNode) : bool :=
  match modifiers node with Some _ => true | None => false end.

(** [hasModifiers(node) && node.modifiers.some(modifier => modifier.kind === target)] *)
Definition hasModifier (node : ModifiedNode) (target : SyntaxKind) : bool :=
  hasModifiers node
  && match modifiers node with
     | Some ms => existsb (fun modifier => kind_eqb (kind modifier) target) ms
     | None => false
     end.

Definition isGenericType (type : TsType) : bool :=
  Js.Boolean (Js.band (flags type) TypeFlags.TypeParameter).

End Types.

(* ================================================================= *)
(** ** [src/modules/jsonSchema.ts] *)

Module JsonSchemaModule.

(** [JsonSchemaLiteral = string | number | boolean] *)
Inductive JsonSchemaLiteral : Type :=
| LitString (s : string)
| LitNumber (n : Js.number)
| LitBoolean (b : bool).

(** [items?: JsonSchema | JsonSchema[]] *)
Inductive ItemsOf (S : Type) : Type :=
| Single (schema : S)
| Positional (schemas : list S).
Arguments Single {S} schema.
Arguments Positional {S} schemas.

(** [{ [key: string]: JsonSchema }]: an ordinary object used as a
    dictionary.  [own] lists its own properties as the object does: array
    indices first, ascending, then the other keys in creation order.  [proto]
    is [None] while the prototype is the one every object literal starts
    with, and [Some v] once an assignment to the key [__proto__] has replaced
    it by [v] (such an assignment creates no own property). *)
Record DictOf (S : Type) : Type := mkDict {
  proto : option S;
  own : list (string * S)
}.
Arguments mkDict {S} proto own.
Arguments proto {S} d.
Arguments own {S} d.

(** [interface JsonSchemaComplex]: every field is optional. *)
Record JsonSchemaComplexOf (S : Type) : Type := mkComplex {
  additionalProperties : option bool;
  allOf : option (list S);
  description : option string;
  enum : option (list JsonSchemaLiteral);
  items : option (ItemsOf S);
  properties : option (DictOf S);
  required : option (list string);
  type : option string
}.
Arguments mkComplex {S}.
Arguments additionalProperties {S} j.
Arguments allOf {S} j.
Arguments description {S} j.
Arguments enum {S} j.
Arguments items {S} j.
Arguments properties {S} j.
Arguments required {S} j.
Arguments type {S} j.

(** [JsonSchema = JsonSchemaLiteral | JsonSchemaComplex] *)
#[warnings="-register-all"] Inductive JsonSchema : Type :=
| Literal (l : JsonSchemaLiteral)
| Complex (c : JsonSchemaComplexOf JsonSchema).

Definition JsonSchemaComplex : Type := JsonSchemaComplexOf JsonSchema.
Definition Items : Type := ItemsOf JsonSchema.
Definition Dict : Type := DictOf JsonSchema.

(** The object literal [{}]. *)
Definition empty : JsonSchemaComplex :=
  mkComplex None None None None None None None None.

(** The object literal [{ type: t }]. *)
Definition typed (t : string) : JsonSchemaComplex :=
  mkComplex None None None None None None None (Some t).

(** [dict[name] = v] on a dictionary built from [{}].  The key [__proto__]
    reaches the accessor every object inherits: an object value becomes the
    prototype, a primitive value is dropped, and in both cases no own
    property appears.  Any other key is an own data property. *)
Definition assign (dict : Dict) (name : string) (v : JsonSchema) : Dict :=
  if String.eqb name "__proto__" then
    match v with
    | Complex _ => mkDict (Some v) (own dict)
    | Literal _ => dict
    end
  else mkDict (proto dict) (Js.put name v (own dict)).

Definition buildLiteral (literal : JsonSchemaLiteral) : JsonSchema :=
  Literal literal.

Definition buildAny : JsonSchema := Complex empty.

Definition unsupported : Js.Error :=
  Js.mkError "Error" "Unsupported type please open an issue on github".

Definition buildPrimitive (type : string) : Js.result JsonSchema :=
  if String.eqb type "any" then Js.Return buildAny
  else if String.eqb type "void" then Js.Return (Complex (typed "undefined"))
  else if String.eqb type "null" then Js.Return (Complex (typed "null"))
  else if String.eqb type "undefined" then Js.Return (Complex (typed "undefined"))
  else if String.eqb type "never" then
    Js.Return (Complex
      (mkComplex None
         (Some [Complex (typed "string"); Complex (typed "number")])
         (Some "This is a never type")
         None None None None None))
  else if String.eqb type "string" then Js.Return (Complex (typed "string"))
  else if String.eqb type "number" then Js.Return (Complex (typed "number"))
  else if String.eqb type "boolean" then Js.Return (Complex (typed "boolean"))
  else Js.Throw unsupported.

Definition buildArray (resolvedType : JsonSchema) : JsonSchema :=
  Complex (mkComplex None None None None (Some (Single resolvedType))
             None None (Some "array")).

Definition buildTuple (resolvedTypes : list JsonSchema) : JsonSchema :=
  Complex (mkComplex None None None None (Some (Positional resolvedTypes))
             None None (Some "array")).

(** An element of the argument of [buildObject]. *)
Record Property : Type := mkProperty {
  isOptional : bool;
  name : string;
  resolvedType : JsonSchema
}.

(** The two fields of the local [schema] that the loop mutates. *)
Record ObjectState : Type := mkObjectState {
  st_properties : Dict;
  st_required : list string
}.

(** The body of the [forEach] callback. *)
Definition visit (schema : ObjectState) (p : Property) : ObjectState :=
  let required' :=
    if negb (isOptional p) then (st_required schema ++ [name p])%list
    else st_required schema in
  mkObjectState (assign (st_properties schema) (name p) (resolvedType p))
                required'.

Definition buildObject (properties : list Property) : JsonSchema :=
  let schema := mkObjectState (mkDict None []) [] in
  let schema := fold_left visit properties schema in
  (* Remove the required if it's not required *)
  let required' :=
    if Nat.eqb (List.length (st_required schema)) 0 then None
    else Some (st_required schema) in
  Complex (mkComplex (Some false) None None None None
             (Some (st_properties schema)) required' (Some "object")).

End JsonSchemaModule.

(* ================================================================= *)
(** ** The union step of the resolver *)

Module Resolver.
Import JsonSchemaModule.

(** Modelled from the spec: the union resolution of the Type Graph Resolver,
    whose source is not part of the two files above.  The constituents are
    filtered to the defined ones; when what remains forms the boolean-union
    pattern the result is the primitive-boolean fragment.  The spec leaves
    the policy for every other union open, so that branch is the parameter
    [otherwise]. *)
Definition resolveUnion (otherwise : list TsType -> Js.result JsonSchema)
    (constituents : list TsType) : Js.result JsonSchema :=
  let defined := filter Types.isDefined constituents in
  if Types.isUnionBoolean defined then buildPrimitive "boolean"
  else otherwise defined.

End Resolver.

(* ================================================================= *)
(** ** Vocabulary of the properties *)

Section Vocabulary.
Import JsonSchemaModule.

(** The four declaration kinds the core transpiles. *)
Definition transpilableKind (k : SyntaxKind) : Prop :=
  k = InterfaceDeclaration \/ k = TypeAliasDeclaration
  \/ k = EnumDeclaration \/ k = ClassDeclaration.

(** A literal: the flag word has the StringLiteral, the NumberLiteral or the
    BooleanLiteral flag. *)
Definition literalNode (t : TsType) : Prop :=
  Js.band (flags t) TypeFlags.StringLiteral <> 0
  \/ Js.band (flags t) TypeFlags.NumberLiteral <> 0
  \/ Js.band (flags t) TypeFlags.BooleanLiteral <> 0.

(** A synthetic boolean literal: no concrete value, and the internal name
    tag [tag]. *)
Definition syntheticLiteral (tag : string) (t : TsType) : Prop :=
  value t = None /\ intrinsicName t = Some tag.

(** A result that is an [enum] fragment of two members. *)
Definition isTwoElementEnum (r : Js.result JsonSchema) : Prop :=
  exists c x y, r = Js.Return (Complex c) /\ enum c = Some [x; y].

(** The flag word has the Object bit and the object flags the Reference
    bit. *)
Definition objectReference (t : TsType) : Prop :=
  Js.band (flags t) TypeFlags.Object <> 0
  /\ Js.band_opt (objectFlags t) ObjectFlags.Reference <> 0.


(** The node has a target and the target's object flags have the Tuple
    bit. *)
Definition tupleTarget (t : TsType) : Prop :=
  exists tg, target t = Some tg
             /\ Js.band (target_objectFlags tg) ObjectFlags.Tuple <> 0.

(** The primitive-kind tags [buildPrimitive] has a case for. *)
Definition mappedKinds : list string :=
  ["any"; "void"; "null"; "undefined"; "never"; "string"; "number"; "boolean"].

(** [needle] occurs somewhere in [hay]. *)
Fixpoint occurs (needle hay : string) : bool :=
  String.prefix needle hay
  || match hay with
     | EmptyString => false
     | String _ hay' => occurs needle hay'
     end.

(** The error reports the kind: the tag occurs in its message. *)
Definition reportsKind (tag : string) (e : Js.Error) : bool :=
  occurs tag (Js.message e).

(** The names of the members that are not optional, in input order. *)
Definition requiredNames (members : list Property) : list string :=
  map name (filter (fun p => negb (isOptional p)) members).

(** The entry a member contributes to [properties]. *)
Definition entry (p : Property) : string * JsonSchema :=
  (name p, resolvedType p).

(** The fragment of the last member called [n]. *)
Fixpoint lastFragment (n : string) (members : list Property)
  : option JsonSchema :=
  match members with
  | [] => None
  | p :: rest =>
      match lastFragment n rest with
      | Some f => Some f
      | None => if String.eqb n (name p) then Some (resolvedType p) else None
      end
  end.

(** Membership in a list of names, as a test. *)
Definition mem (k : string) (ks : list string) : bool :=
  existsb (String.eqb k) ks.

(** The names of a list, each kept at its first occurrence. *)
Fixpoint firstOccurrences (names : list string) : list string :=
  match names with
  | [] => []
  | n :: rest =>
      n :: filter (fun m => negb (String.eqb m n)) (firstOccurrences rest)
  end.

(** No member is called [__proto__]. *)
Definition plainNames (members : list Property) : Prop :=
  Forall (fun p => name p <> "__proto__") members.

(** No member is called by an array index. *)
Definition noIndexNames (members : list Property) : Prop :=
  Forall (fun p => Js.arrayIndex (name p) = None) members.

(** No key of the list is an array index. *)
Definition plainKeys (ks : list string) : bool :=
  forallb (fun k => match Js.arrayIndex k with Some _ => false | None => true end)
          ks.

(** The keys are listed as an object lists them: first the array indices,
    ascending from [bound], then keys that are not array indices. *)
Fixpoint listedFrom (bound : N) (ks : list string) : bool :=
  match ks with
  | [] => true
  | k :: rest =>
      match Js.arrayIndex k with
      | Some i => (bound <=? i)%N && listedFrom i rest
      | None => plainKeys rest
      end
  end.

(** A node as the checker builds it: a reference whose target has the Tuple
    flag is a tuple, and a tuple has no symbol (the comment of [isTuple] in
    the source). *)
Definition checkerNode (t : TsType) : Prop :=
  tupleTarget t -> symbol t = None.

(** *** Nodes and fragments used as examples *)

Definition trueLiteral : TsType :=
  mkTsType TypeFlags.BooleanLiteral None None None None (Some "true").

Definition falseLiteral : TsType :=
  mkTsType TypeFlags.BooleanLiteral None None None None (Some "false").

(** An object reference called [Array] whose target is flagged as a
    tuple. *)
Definition arrayNamedTuple : TsType :=
  mkTsType TypeFlags.Object
    (Some (Z.lor ObjectFlags.Reference ObjectFlags.Tuple))
    (Some (mkSymbol 0 "Array"))
    (Some (mkGenericType (Z.lor ObjectFlags.Reference ObjectFlags.Tuple)))
    None None.


(** The type of an enum declaration. *)
Definition enumNode : TsType :=
  mkTsType (Z.lor TypeFlags.EnumLiteral TypeFlags.Union)
    None None None None None.

(** A union that is not an enum. *)
Definition plainUnion : TsType :=
  mkTsType TypeFlags.Union None None None None None.

Definition stringFragment : JsonSchema := Complex (typed "string").
Definition numberFragment : JsonSchema := Complex (typed "number").
Definition booleanFragment : JsonSchema := Complex (typed "boolean").

(** [{a: string, b?: number}] *)
Definition membersAB : list Property :=
  [mkProperty false "a" stringFragment; mkProperty true "b" numberFragment].

(** [{b: string, 1?: number}]: the second name is an array index. *)
Definition membersB1 : list Property :=
  [mkProperty false "b" stringFragment; mkProperty true "1" numberFragment].

(** Two required members that share the name [a]. *)
Definition membersAA : list Property :=
  [mkProperty false "a" stringFragment; mkProperty false "a" numberFragment].

End Vocabulary.

(* ================================================================= *)
(** ** Vocabulary of the further properties *)

Section FurtherVocabulary.
Import JsonSchemaModule.

(** The positions of the nine flags [isPrimitive] tests, in the order of the
    source: Any, String, Number, BigInt, Boolean, Void, Undefined, Null,
    Never. *)
Definition primitiveBits : list Z := [0; 2; 3; 6; 4; 14; 15; 16; 17].

(** The positions of the three flags [isLiteral] tests: StringLiteral,
    NumberLiteral, BooleanLiteral. *)
Definition literalBits : list Z := [7; 8; 9].

(** Some bit of the word [z] among the positions [bits] is set. *)
Definition anyBit (z : Z) (bits : list Z) : bool := existsb (Z.testbit z) bits.

(** The [properties] object of a fragment. *)
Definition propertiesOf (s : JsonSchema) : option Dict :=
  match s with
  | Complex c => properties c
  | Literal _ => None
  end.

(** The [required] list of a fragment, empty when the key is absent. *)
Definition requiredOf (s : JsonSchema) : list string :=
  match s with
  | Complex c => match required c with Some names => names | None => [] end
  | Literal _ => []
  end.

(** The own entry of [properties] under the key [n]. *)
Definition lookupProperty (n : string) (s : JsonSchema) : option JsonSchema :=
  match propertiesOf s with
  | Some dict => Js.get n (own dict)
  | None => None
  end.

(** What a member contributes to [required]: its flag and its name. *)
Definition requirement (p : Property) : bool * string := (isOptional p, name p).

(** A method that is optional: [foo?(): void]. *)
Definition optionalMethod : Symbol :=
  mkSymbol (Z.lor SymbolFlags.Method SymbolFlags.Optional) "foo".

(** The node [undefined]. *)
Definition undefinedNode : TsType :=
  mkTsType TypeFlags.Undefined None None None None (Some "undefined").

(** An object reference that has lost its target. *)
Definition danglingReference : TsType :=
  mkTsType TypeFlags.Object (Some ObjectFlags.Reference) None None None None.

(** [{a?: string, b: number}]: the entries of [membersAB] with the flags
    exchanged. *)
Definition membersAB' : list Property :=
  [mkProperty true "a" stringFragment; mkProperty false "b" numberFragment].

(** [{b?: number, a: string}]: the members of [membersAB] in the other
    order. *)
Definition membersBA : list Property :=
  [mkProperty true "b" numberFragment; mkProperty false "a" stringFragment].

End FurtherVocabulary.

(* ================================================================= *)
(** ** Facts about the JavaScript primitives *)

Section JsFacts.

Lemma ToInt32_mod (z : Z) : Js.ToInt32 z mod 2 ^ 32 = z mod 2 ^ 32.
Proof.
  unfold Js.ToInt32.
  rewrite Zminus_mod_idemp_l.
  f_equal. lia.
Qed.

Lemma ToInt32_testbit (z n : Z) :
  0 <= n < 32 -> Z.testbit (Js.ToInt32 z) n = Z.testbit z n.
Proof.
  intros Hn.
  rewrite <- (Z.mod_pow2_bits_low (Js.ToInt32 z) 32 n) by lia.
  rewrite <- (Z.mod_pow2_bits_low z 32 n) by lia.
  now rewrite ToInt32_mod.
Qed.

Lemma ToInt32_small (z : Z) : - 2 ^ 31 <= z < 2 ^ 31 -> Js.ToInt32 z = z.
Proof.
  intros Hz. unfold Js.ToInt32.
  rewrite Z.mod_small; lia.
Qed.

(** Masking with a single bit leaves that bit or nothing. *)
Lemma land_pow2 (a n : Z) :
  0 <= n -> Z.land a (2 ^ n) = if Z.testbit a n then 2 ^ n else 0.
Proof.
  intros Hn. apply Z.bits_inj'. intros m Hm.
  rewrite Z.land_spec, Z.pow2_bits_eqb by assumption.
  destruct (Z.eqb_spec n m) as [->|Hneq].
  - rewrite andb_true_r.
    destruct (Z.testbit a m) eqn:E.
    + now rewrite Z.pow2_bits_true.
    + now rewrite Z.bits_0.
  - rewrite andb_false_r.
    destruct (Z.testbit a n).
    + rewrite Z.pow2_bits_false; auto.
    + now rewrite Z.bits_0.
Qed.

(** A test [Boolean(flags & F)] against a one-bit flag [F = 2^n] reads bit
    [n] of the flag word and nothing else. *)
Lemma Boolean_band_bit (z n : Z) :
  0 <= n < 31 -> Js.Boolean (Js.band z (2 ^ n)) = Z.testbit z n.
Proof.
  intros Hn. unfold Js.Boolean, Js.truthy, Js.band.
  assert (Hp : 0 < 2 ^ n < 2 ^ 31).
  { split; [apply Z.pow_pos_nonneg; lia | apply Z.pow_lt_mono_r; lia]. }
  rewrite (ToInt32_small (2 ^ n)) by lia.
  rewrite land_pow2 by lia.
  rewrite ToInt32_testbit by lia.
  destruct (Z.testbit z n); simpl.
  - destruct (Z.eqb_spec (2 ^ n) 0); [lia | reflexivity].
  - reflexivity.
Qed.

Lemma truthy_true (z : Z) : Js.truthy z = true <-> z <> 0.
Proof.
  unfold Js.truthy. destruct (Z.eqb_spec z 0); simpl; split; intros; congruence.
Qed.

Lemma Boolean_true (z : Z) : Js.Boolean z = true <-> z <> 0.
Proof. apply truthy_true. Qed.

Lemma Boolean_and (a b : Z) :
  Js.Boolean (Js.and a b) = Js.Boolean a && Js.Boolean b.
Proof.
  unfold Js.Boolean, Js.and. destruct (Js.truthy a) eqn:E; simpl; auto.
Qed.

Lemma Boolean_or (a b : Z) :
  Js.Boolean (Js.or a b) = Js.Boolean a || Js.Boolean b.
Proof.
  unfold Js.Boolean, Js.or. destruct (Js.truthy a) eqn:E; simpl; auto.
Qed.

End JsFacts.

(* ================================================================= *)
(** ** The classifier *)

Section Classifier.
Import JsonSchemaModule.

Lemma isLiteral_iff (t : TsType) : Types.isLiteral t = true <-> literalNode t.
Proof.
  unfold Types.isLiteral, literalNode.
  rewrite !Boolean_or, !orb_true_iff, !Boolean_true. tauto.
Qed.

Lemma synthetic_iff (tag : string) (t : TsType) :
  Types.is_undefined (value t) && Types.strict_eq_string (intrinsicName t) tag
  = true
  <-> syntheticLiteral tag t.
Proof.
  unfold syntheticLiteral.
  destruct (value t), (intrinsicName t) as [s|]; simpl;
    try (split; [discriminate | intros [? ?]; discriminate]).
  rewrite String.eqb_eq. split.
  - intros ->. auto.
  - intros [_ H]. congruence.
Qed.

Lemma isLiteralTrue_iff (t : TsType) :
  Types.isLiteralTrue t = true <-> syntheticLiteral "true" t.
Proof. apply synthetic_iff. Qed.

Lemma isLiteralFalse_iff (t : TsType) :
  Types.isLiteralFalse t = true <-> syntheticLiteral "false" t.
Proof. apply synthetic_iff. Qed.

Lemma isUnionBoolean_pair (a b : TsType) :
  Types.isUnionBoolean [a; b] = true <->
  literalNode a /\ literalNode b
  /\ ((syntheticLiteral "true" a /\ syntheticLiteral "false" b)
      \/ (syntheticLiteral "true" b /\ syntheticLiteral "false" a)).
Proof.
  unfold Types.isUnionBoolean. cbn [List.length Nat.eqb negb].
  rewrite <- !isLiteralTrue_iff, <- !isLiteralFalse_iff, <- !isLiteral_iff.
  destruct (Types.isLiteral a), (Types.isLiteral b); cbn [negb orb].
  - rewrite orb_true_iff, !andb_true_iff. tauto.
  - split; [discriminate | intros (_ & H & _); discriminate].
  - split; [discriminate | intros (H & _); discriminate].
  - split; [discriminate | intros (H & _); discriminate].
Qed.

Lemma isUnionBoolean_length (types : list TsType) :
  List.length types <> 2%nat -> Types.isUnionBoolean types = false.
Proof.
  intros H. unfold Types.isUnionBoolean.
  destruct (Nat.eqb_spec (List.length types) 2) as [E|E]; [contradiction|].
  reflexivity.
Qed.

Lemma resolveUnion_boolean (otherwise : list TsType -> Js.result JsonSchema)
    (a b : TsType) :
  Types.isDefined a = true -> Types.isDefined b = true ->
  Types.isUnionBoolean [a; b] = true ->
  Resolver.resolveUnion otherwise [a; b] = Js.Return booleanFragment.
Proof.
  intros Ha Hb H. unfold Resolver.resolveUnion.
  cbn [filter]. rewrite Ha, Hb, H. reflexivity.
Qed.

(** C1.  On a pair of constituents, [isUnionBoolean] answers true exactly
    when both are literals and one is the synthetic [true] literal (no
    concrete value, internal name tag [true]) and the other the synthetic
    [false] literal, in either order; on a list whose length is not 2 it
    answers false; and a pair of defined constituents it accepts resolves to
    exactly [{type: "boolean"}], which is not a two-element [enum]. *)
Theorem isUnionBoolean_spec :
  (forall a b : TsType,
      Types.isUnionBoolean [a; b] = true <->
      literalNode a /\ literalNode b
      /\ ((syntheticLiteral "true" a /\ syntheticLiteral "false" b)
          \/ (syntheticLiteral "true" b /\ syntheticLiteral "false" a)))
  /\ (forall types : list TsType,
         List.length types <> 2%nat -> Types.isUnionBoolean types = false)
  /\ (forall (otherwise : list TsType -> Js.result JsonSchema) (a b : TsType),
         Types.isDefined a = true -> Types.isDefined b = true ->
         Types.isUnionBoolean [a; b] = true ->
         Resolver.resolveUnion otherwise [a; b]
         = Js.Return (Complex (typed "boolean"))
         /\ ~ isTwoElementEnum (Resolver.resolveUnion otherwise [a; b])).
Proof.
  split; [exact isUnionBoolean_pair|].
  split; [exact isUnionBoolean_length|].
  intros otherwise a b Ha Hb H.
  pose proof (resolveUnion_boolean otherwise a b Ha Hb H) as R.
  split; [exact R|].
  rewrite R. intros (c & x & y & E & He).
  injection E as <-. discriminate He.
Qed.

(** The pair [true | false] and the pair [false | true] are both accepted,
    a triple is not, and the accepted pairs resolve to the boolean
    fragment. *)
Lemma isUnionBoolean_spec_witness :
  Types.isUnionBoolean [trueLiteral; falseLiteral] = true
  /\ Types.isUnionBoolean [falseLiteral; trueLiteral] = true
  /\ Types.isUnionBoolean [trueLiteral; falseLiteral; falseLiteral] = false
  /\ Resolver.resolveUnion (fun _ => Js.Throw unsupported)
       [falseLiteral; trueLiteral]
     = Js.Return (Complex (typed "boolean")).
Proof.
  destruct isUnionBoolean_spec as (Hiff & Hlen & Hres).
  split.
  { apply Hiff. split; [|split].
    - right. right. vm_compute. discriminate.
    - right. right. vm_compute. discriminate.
    - left. split; split; reflexivity. }
  split.
  { apply Hiff. split; [|split].
    - right. right. vm_compute. discriminate.
    - right. right. vm_compute. discriminate.
    - right. split; split; reflexivity. }
  split.
  { apply Hlen. simpl. lia. }
  apply (Hres (fun _ => Js.Throw unsupported) falseLiteral trueLiteral);
    reflexivity.
Defined.





(** The two predicates rely on the checker for their exclusion: [isTuple]
    does not read the symbol, so a reference called [Array] with a Tuple
    target, which the checker never builds, would satisfy both. *)
Lemma isArray_isTuple_overlap :
  ~ checkerNode arrayNamedTuple
  /\ Types.isArray arrayNamedTuple = true
  /\ Types.isTuple arrayNamedTuple = Js.Return true.
Proof.
  split; [|split; reflexivity].
  intros H. assert (Ht : tupleTarget arrayNamedTuple).
  { exists (mkGenericType (Z.lor ObjectFlags.Reference ObjectFlags.Tuple)).
    split; [reflexivity | vm_compute; discriminate]. }
  specialize (H Ht). discriminate H.
Qed.

Lemma isUndefined_bit (t : TsType) :
  Types.isUndefined t = Z.testbit (flags t) 15.
Proof.
  unfold Types.isUndefined.
  change TypeFlags.Undefined with (2 ^ 15).
  apply Boolean_band_bit. lia.
Qed.

(** C8.  [isDefined] is the negation of [isUndefined] on every node; both
    read bit 15 of the flag word, the Undefined flag, and nothing else, so a
    node that carries the Undefined flag next to any other flags is undefined
    and not defined. *)
Theorem isDefined_negb_isUndefined :
  (forall t, Types.isDefined t = negb (Types.isUndefined t))
  /\ (forall t, Types.isUndefined t = Z.testbit (flags t) 15)
  /\ (forall t, Types.isDefined t = negb (Z.testbit (flags t) 15))
  /\ (forall t other,
         Types.isUndefined (withFlags t (Z.lor TypeFlags.Undefined other)) = true
         /\ Types.isDefined (withFlags t (Z.lor TypeFlags.Undefined other)) = false).
Proof.
  assert (Hneg : forall t, Types.isDefined t = negb (Types.isUndefined t))
    by reflexivity.
  split; [exact Hneg|].
  split; [exact isUndefined_bit|].
  split; [intros t; rewrite Hneg, isUndefined_bit; reflexivity|].
  intros t other.
  assert (Hu : Types.isUndefined
                 (withFlags t (Z.lor TypeFlags.Undefined other)) = true).
  { rewrite isUndefined_bit. cbn [withFlags flags].
    rewrite Z.lor_spec. reflexivity. }
  split; [exact Hu|]. rewrite Hneg, Hu. reflexivity.
Qed.

Lemma isEnum_iff (t : TsType) :
  Types.isEnum t = true <->
  Js.band (flags t) TypeFlags.EnumLiteral <> 0
  /\ Js.band (flags t) TypeFlags.Union <> 0.
Proof.
  unfold Types.isEnum.
  rewrite Boolean_and, andb_true_iff, !Boolean_true. tauto.
Qed.

Lemma isUnion_iff (t : TsType) :
  Types.isUnion t = true <-> Js.band (flags t) TypeFlags.Union <> 0.
Proof. unfold Types.isUnion. apply Boolean_true. Qed.

(** C9.  Every node that satisfies [isEnum] satisfies [isUnion]: [isEnum]
    asks for the EnumLiteral and the Union flags, [isUnion] for the Union flag
    alone.  The two predicates therefore overlap (an enum node satisfies
    both), while a union need not be an enum. *)
Theorem isEnum_implies_isUnion :
  (forall t, Types.isEnum t = true -> Types.isUnion t = true)
  /\ (forall t, Types.isEnum t = true <->
                Js.band (flags t) TypeFlags.EnumLiteral <> 0
                /\ Js.band (flags t) TypeFlags.Union <> 0)
  /\ (forall t, Types.isUnion t = true <->
                Js.band (flags t) TypeFlags.Union <> 0)
  /\ (Types.isEnum enumNode = true /\ Types.isUnion enumNode = true)
  /\ (Types.isUnion plainUnion = true /\ Types.isEnum plainUnion = false).
Proof.
  split.
  { intros t H. apply isUnion_iff. apply isEnum_iff in H. tauto. }
  split; [exact isEnum_iff|].
  split; [exact isUnion_iff|].
  split; split; reflexivity.
Qed.

(** The type of an enum declaration is classified as a union too. *)
Lemma isEnum_implies_isUnion_witness :
  Types.isEnum enumNode = true /\ Types.isUnion enumNode = true.
Proof.
  split; [reflexivity|].
  apply (proj1 isEnum_implies_isUnion enumNode). reflexivity.
Defined.

Lemma isTranspilable_iff (node : Node) :
  Types.isTranspilable node = true <-> transpilableKind (kind node).
Proof.
  unfold Types.isTranspilable, Types.isInterfaceDeclaration,
    Types.isTypeAliasDeclaration, Types.isEnumDeclaration,
    Types.isClassDeclaration, transpilableKind.
  destruct (kind node); cbn; split; intros H; auto;
    try discriminate;
    try (destruct H as [H|[H|[H|H]]]; discriminate).
Qed.

(** C7.  [isTranspilable] answers true exactly for an interface, a type
    alias, an enum or a class declaration and false for a node of any other
    kind; used as the selection predicate over the nodes of a file it keeps
    the nodes of these four kinds and drops every other node. *)
Theorem isTranspilable_spec :
  (forall node,
      Types.isTranspilable node = true <-> transpilableKind (kind node))
  /\ (forall node,
         Types.isTranspilable node = false <-> ~ transpilableKind (kind node))
  /\ (forall nodes node,
         In node (filter Types.isTranspilable nodes) <->
         In node nodes /\ transpilableKind (kind node)).
Proof.
  split; [exact isTranspilable_iff|].
  split.
  - intros node. rewrite <- isTranspilable_iff.
    destruct (Types.isTranspilable node); split; intros; congruence.
  - intros nodes node. rewrite filter_In, isTranspilable_iff. tauto.
Qed.

(** A class declaration is kept, a function declaration is not. *)
Lemma isTranspilable_spec_witness :
  Types.isTranspilable (mkNode ClassDeclaration) = true
  /\ Types.isTranspilable (mkNode FunctionDeclaration) = false.
Proof.
  destruct isTranspilable_spec as (Hyes & Hno & _).
  split.
  - apply Hyes. cbn. unfold transpilableKind. tauto.
  - apply Hno. cbn. intros [H|[H|[H|H]]]; discriminate.
Defined.

End Classifier.

(* ================================================================= *)
(** ** The schema builder: primitives, arrays and tuples *)

Section Builder.
Import JsonSchemaModule.

(** Closes a goal [~ In tag mappedKinds] for a literal [tag]. *)
Ltac not_mapped :=
  simpl; intros [E|[E|[E|[E|[E|[E|[E|[E|[]]]]]]]]]; discriminate E.

Lemma buildPrimitive_unmapped (tag : string) :
  ~ In tag mappedKinds -> buildPrimitive tag = Js.Throw unsupported.
Proof.
  intros H. unfold buildPrimitive.
  repeat match goal with
         | |- context [String.eqb tag ?s] =>
             destruct (String.eqb_spec tag s) as [->|_];
             [exfalso; apply H; simpl; tauto|]
         end.
  reflexivity.
Qed.

Lemma buildPrimitive_mapped (tag : string) :
  In tag mappedKinds -> exists s, buildPrimitive tag = Js.Return s.
Proof.
  intros H. simpl in H.
  repeat (destruct H as [<-|H]; [eexists; reflexivity|]).
  contradiction.
Qed.

(** C2.  [buildPrimitive] maps [any] to [{}], [void] and [undefined] to
    [{type: "undefined"}], [null] to [{type: "null"}], [string], [number] and
    [boolean] to the fragment of that type, and [never] to
    [{description: "This is a never type", allOf: [{type: "string"},
    {type: "number"}]}]; it returns a fragment for these eight tags only and
    throws its error for every other tag. *)
Theorem buildPrimitive_mapping :
  buildPrimitive "any" = Js.Return (Complex empty)
  /\ buildPrimitive "void" = Js.Return (Complex (typed "undefined"))
  /\ buildPrimitive "undefined" = Js.Return (Complex (typed "undefined"))
  /\ buildPrimitive "null" = Js.Return (Complex (typed "null"))
  /\ buildPrimitive "string" = Js.Return (Complex (typed "string"))
  /\ buildPrimitive "number" = Js.Return (Complex (typed "number"))
  /\ buildPrimitive "boolean" = Js.Return (Complex (typed "boolean"))
  /\ buildPrimitive "never"
     = Js.Return (Complex
         {| additionalProperties := None;
            allOf := Some [Complex (typed "string"); Complex (typed "number")];
            description := Some "This is a never type";
            enum := None; items := None; properties := None;
            required := None; type := None |})
  /\ (forall tag,
         In tag mappedKinds <-> exists s, buildPrimitive tag = Js.Return s)
  /\ (forall tag,
         ~ In tag mappedKinds <-> exists e, buildPrimitive tag = Js.Throw e).
Proof.
  repeat (split; [reflexivity|]).
  assert (Hdec : forall tag, In tag mappedKinds \/ ~ In tag mappedKinds).
  { intros tag. destruct (in_dec string_dec tag mappedKinds); auto. }
  split; intros tag; split.
  - apply buildPrimitive_mapped.
  - intros [s Hs]. destruct (Hdec tag) as [H|H]; [exact H|].
    rewrite (buildPrimitive_unmapped tag H) in Hs. discriminate.
  - intros H. exists unsupported. now apply buildPrimitive_unmapped.
  - intros [e He] H. destruct (buildPrimitive_mapped tag H) as [s Hs].
    congruence.
Qed.

(** The tag [bigint], a primitive kind of the classifier, has no case. *)
Lemma buildPrimitive_mapping_witness :
  exists e, buildPrimitive "bigint" = Js.Throw e.
Proof.
  destruct buildPrimitive_mapping as (_ & _ & _ & _ & _ & _ & _ & _ & _ & H).
  apply H. not_mapped.
Defined.

(** C5, as the code has it.  When a primitive kind without a mapping reaches
    [buildPrimitive], the call throws an [Error] whose message is the fixed
    text [Unsupported type please open an issue on github]; any two kinds
    without a mapping get the same error. *)
Theorem buildPrimitive_unsupported_error (tag tag' : string) :
  ~ In tag mappedKinds -> ~ In tag' mappedKinds ->
  buildPrimitive tag
  = Js.Throw (Js.mkError "Error"
                "Unsupported type please open an issue on github")
  /\ buildPrimitive tag' = buildPrimitive tag.
Proof.
  intros H H'. rewrite !buildPrimitive_unmapped by assumption.
  split; reflexivity.
Qed.

Lemma buildPrimitive_unsupported_error_witness :
  buildPrimitive "bigint"
  = Js.Throw (Js.mkError "Error"
                "Unsupported type please open an issue on github")
  /\ buildPrimitive "symbol" = buildPrimitive "bigint".
Proof.
  apply (buildPrimitive_unsupported_error "bigint" "symbol"); not_mapped.
Defined.

(** C5, as the claim states it, fails: the error thrown for the unmapped
    kind [bigint] does not contain that name. *)
Lemma buildPrimitive_error_omits_kind :
  exists e,
    ~ In "bigint" mappedKinds
    /\ buildPrimitive "bigint" = Js.Throw e
    /\ reportsKind "bigint" e = false
    /\ buildPrimitive "symbol" = Js.Throw e.
Proof.
  exists unsupported. split.
  - not_mapped.
  - repeat split; reflexivity.
Qed.

(** C6.  [buildTuple] returns the fragment of type [array] whose [items] is
    the sequence of element fragments in input order, and no other field;
    [buildArray] returns the fragment of type [array] whose [items] is the one
    element fragment itself, which differs from the sequence holding that one
    fragment.  The tuple [[string, number, boolean]] and the array of
    [string] give the two fragments of the specification. *)
Theorem buildTuple_buildArray_items :
  (forall resolvedTypes,
      buildTuple resolvedTypes
      = Complex {| additionalProperties := None; allOf := None;
                   description := None; enum := None;
                   items := Some (Positional resolvedTypes);
                   properties := None; required := None;
                   type := Some "array" |})
  /\ (forall resolvedType,
         buildArray resolvedType
         = Complex {| additionalProperties := None; allOf := None;
                      description := None; enum := None;
                      items := Some (Single resolvedType);
                      properties := None; required := None;
                      type := Some "array" |})
  /\ (forall resolvedType,
         buildArray resolvedType <> buildTuple [resolvedType])
  /\ buildTuple [stringFragment; numberFragment; booleanFragment]
     = Complex {| additionalProperties := None; allOf := None;
                  description := None; enum := None;
                  items := Some (Positional [Complex (typed "string");
                                             Complex (typed "number");
                                             Complex (typed "boolean")]);
                  properties := None; required := None;
                  type := Some "array" |}
  /\ buildArray stringFragment
     = Complex {| additionalProperties := None; allOf := None;
                  description := None; enum := None;
                  items := Some (Single (Complex (typed "string")));
                  properties := None; required := None;
                  type := Some "array" |}.
Proof.
  repeat split; try reflexivity.
  intros resolvedType. unfold buildArray, buildTuple. intros H.
  injection H as H. discriminate H.
Qed.

End Builder.

(* ================================================================= *)
(** ** The schema builder: objects *)

Section Objects.
Import JsonSchemaModule.

Lemma mem_In (k : string) (ks : list string) : mem k ks = true <-> In k ks.
Proof.
  unfold mem. rewrite existsb_exists. split.
  - intros (x & Hx & E). apply String.eqb_eq in E. now subst.
  - intros H. exists k. split; [exact H | apply String.eqb_refl].
Qed.

Lemma mem_app (k : string) (ks ks' : list string) :
  mem k (ks ++ ks') = mem k ks || mem k ks'.
Proof. apply existsb_app. Qed.

Lemma has_In {V : Type} (k : string) (o : list (string * V)) :
  Js.has k o = true <-> In k (map fst o).
Proof.
  unfold Js.has.
  induction o as [|[k0 v0] rest IH]; cbn [Js.get map fst In].
  - split; [discriminate | contradiction].
  - destruct (String.eqb_spec k k0) as [->|Hne].
    + split; auto.
    + rewrite IH. split; [auto | intros [E|H]; [congruence | exact H]].
Qed.

Lemma has_mem {V : Type} (k : string) (o : list (string * V)) :
  Js.has k o = mem k (map fst o).
Proof.
  pose proof (has_In k o) as H1. pose proof (mem_In k (map fst o)) as H2.
  destruct (Js.has k o), (mem k (map fst o)); try reflexivity.
  - symmetry. apply H2, H1. reflexivity.
  - apply H1, H2. reflexivity.
Qed.

Lemma get_replace {V : Type} (k k' : string) (v : V) (o : list (string * V)) :
  Js.has k' o = true ->
  Js.get k (Js.replace k' v o)
  = if String.eqb k k' then Some v else Js.get k o.
Proof.
  unfold Js.has.
  induction o as [|[k0 v0] rest IH]; cbn [Js.get Js.replace].
  - discriminate.
  - destruct (String.eqb_spec k' k0) as [->|Hne]; cbn [Js.get].
    + intros _. destruct (String.eqb k k0); reflexivity.
    + intros H. rewrite (IH H).
      destruct (String.eqb_spec k k0) as [->|Hne'].
      * destruct (String.eqb_spec k0 k'); [congruence | reflexivity].
      * reflexivity.
Qed.

Lemma get_insertIndex {V : Type} (i : N) (k k' : string) (v : V)
    (o : list (string * V)) :
  Js.get k' o = None ->
  Js.get k (Js.insertIndex i k' v o)
  = if String.eqb k k' then Some v else Js.get k o.
Proof.
  induction o as [|[k0 v0] rest IH]; cbn [Js.get Js.insertIndex].
  - reflexivity.
  - destruct (String.eqb_spec k' k0) as [->|Hne]; [discriminate|].
    intros H.
    destruct (Js.arrayIndex k0) as [j|]; [destruct (i <? j)%N|];
      cbn [Js.get]; try reflexivity.
    rewrite (IH H).
    destruct (String.eqb_spec k k0) as [->|Hne'].
    + destruct (String.eqb_spec k0 k'); [congruence | reflexivity].
    + reflexivity.
Qed.

Lemma get_append {V : Type} (k k' : string) (v : V) (o : list (string * V)) :
  Js.get k' o = None ->
  Js.get k (o ++ [(k', v)])
  = if String.eqb k k' then Some v else Js.get k o.
Proof.
  induction o as [|[k0 v0] rest IH]; cbn [Js.get app].
  - reflexivity.
  - destruct (String.eqb_spec k' k0) as [->|Hne]; [discriminate|].
    intros H. rewrite (IH H).
    destruct (String.eqb_spec k k0) as [->|Hne'].
    + destruct (String.eqb_spec k0 k'); [congruence | reflexivity].
    + reflexivity.
Qed.

(** Lookup after an assignment, whatever the place the key takes. *)
Lemma get_put {V : Type} (k k' : string) (v : V) (o : list (string * V)) :
  Js.get k (Js.put k' v o) = if String.eqb k k' then Some v else Js.get k o.
Proof.
  unfold Js.put. destruct (Js.has k' o) eqn:H.
  - now apply get_replace.
  - assert (Hnone : Js.get k' o = None).
    { unfold Js.has in H. destruct (Js.get k' o); [discriminate | reflexivity]. }
    destruct (Js.arrayIndex k').
    + now apply get_insertIndex.
    + now apply get_append.
Qed.

Lemma keys_replace {V : Type} (k : string) (v : V) (o : list (string * V)) :
  map fst (Js.replace k v o) = map fst o.
Proof.
  induction o as [|[k0 v0] rest IH]; cbn [Js.replace map fst]; [reflexivity|].
  destruct (String.eqb k k0); cbn [map fst]; [reflexivity | now rewrite IH].
Qed.

Lemma In_insertIndex {V : Type} (i : N) (k : string) (v : V)
    (o : list (string * V)) (x : string) :
  In x (map fst (Js.insertIndex i k v o)) <-> x = k \/ In x (map fst o).
Proof.
  induction o as [|[k0 v0] rest IH]; cbn [Js.insertIndex map fst In].
  - intuition.
  - destruct (Js.arrayIndex k0) as [j|]; [destruct (i <? j)%N|];
      cbn [map fst In]; try rewrite IH; intuition.
Qed.

Lemma NoDup_insertIndex {V : Type} (i : N) (k : string) (v : V)
    (o : list (string * V)) :
  ~ In k (map fst o) -> NoDup (map fst o) ->
  NoDup (map fst (Js.insertIndex i k v o)).
Proof.
  induction o as [|[k0 v0] rest IH]; cbn [Js.insertIndex map fst];
    intros Hout Hnd.
  - constructor; [intros [] | constructor].
  - destruct (Js.arrayIndex k0) as [j|]; [destruct (i <? j)%N|];
      cbn [map fst]; try (constructor; assumption).
    inversion Hnd as [|? ? Hk0 Hrest]; subst.
    constructor.
    + rewrite In_insertIndex. intros [E|H]; [|contradiction].
      apply Hout. left. congruence.
    + apply IH; [|assumption]. intros H. apply Hout. now right.
Qed.

(** An assignment never makes a key appear twice. *)
Lemma NoDup_put {V : Type} (k : string) (v : V) (o : list (string * V)) :
  NoDup (map fst o) -> NoDup (map fst (Js.put k v o)).
Proof.
  intros Hnd. unfold Js.put. destruct (Js.has k o) eqn:H.
  - now rewrite keys_replace.
  - assert (Hout : ~ In k (map fst o)).
    { intros Hin. apply has_In in Hin. congruence. }
    destruct (Js.arrayIndex k).
    + now apply NoDup_insertIndex.
    + rewrite map_app. cbn [map fst].
      apply (Permutation_NoDup (l := k :: map fst o)).
      * apply Permutation_cons_append.
      * now constructor.
Qed.

(** A key that is no array index takes the last place when it is new. *)
Lemma keys_put (k : string) {V : Type} (v : V) (o : list (string * V)) :
  Js.arrayIndex k = None ->
  map fst (Js.put k v o)
  = if mem k (map fst o) then map fst o else (map fst o ++ [k])%list.
Proof.
  intros Hk. unfold Js.put. rewrite has_mem, Hk.
  destruct (mem k (map fst o)).
  - apply keys_replace.
  - now rewrite map_app.
Qed.

Lemma put_fresh (k : string) {V : Type} (v : V) (o : list (string * V)) :
  Js.arrayIndex k = None ->
  mem k (map fst o) = false -> Js.put k v o = (o ++ [(k, v)])%list.
Proof.
  intros Hk H. unfold Js.put. now rewrite has_mem, H, Hk.
Qed.

Lemma put_twice {V : Type} (k : string) (v v' : V) :
  Js.put k v' (Js.put k v []) = [(k, v')].
Proof.
  assert (H1 : Js.put k v [] = [(k, v)]).
  { unfold Js.put. cbn. destruct (Js.arrayIndex k); reflexivity. }
  rewrite H1. unfold Js.put, Js.has. cbn [Js.get Js.replace].
  now rewrite String.eqb_refl.
Qed.

Lemma filter_absorb (k : string) (ks l : list string) :
  mem k ks = true ->
  filter (fun m => negb (mem m ks)) (filter (fun m => negb (String.eqb m k)) l)
  = filter (fun m => negb (mem m ks)) l.
Proof.
  intros Hk. induction l as [|x l IH]; cbn [filter]; [reflexivity|].
  destruct (String.eqb_spec x k) as [->|Hne]; cbn [negb filter].
  - rewrite Hk. cbn [negb]. exact IH.
  - rewrite IH. reflexivity.
Qed.

Lemma filter_snoc (k : string) (ks l : list string) :
  filter (fun m => negb (mem m (ks ++ [k]))) l
  = filter (fun m => negb (mem m ks)) (filter (fun m => negb (String.eqb m k)) l).
Proof.
  induction l as [|x l IH]; cbn [filter]; [reflexivity|].
  rewrite mem_app. unfold mem at 2. cbn [existsb]. rewrite orb_false_r.
  destruct (String.eqb x k); cbn [negb filter].
  - rewrite orb_true_r. cbn [negb]. exact IH.
  - rewrite orb_false_r. rewrite IH. reflexivity.
Qed.

Lemma filter_mem_nil (l : list string) :
  filter (fun m => negb (mem m [])) l = l.
Proof.
  induction l as [|x l IH]; [reflexivity|].
  cbn [filter]. unfold mem at 1. cbn [existsb negb]. now f_equal.
Qed.

(** One turn of the loop on a member that is not called [__proto__]. *)
Lemma visit_plain (st : ObjectState) (p : Property) :
  name p <> "__proto__" ->
  st_properties (visit st p)
  = mkDict (proto (st_properties st))
      (Js.put (name p) (resolvedType p) (own (st_properties st))).
Proof.
  intros H. unfold visit, assign. cbn [st_properties].
  destruct (String.eqb_spec (name p) "__proto__"); [contradiction | reflexivity].
Qed.

Lemma fold_visit_required (members : list Property) (st : ObjectState) :
  st_required (fold_left visit members st)
  = (st_required st ++ requiredNames members)%list.
Proof.
  revert st. induction members as [|p members IH]; intros st; cbn [fold_left].
  - unfold requiredNames. cbn. now rewrite app_nil_r.
  - rewrite IH. unfold requiredNames, visit. cbn [st_required filter].
    destruct (isOptional p); cbn [negb map].
    + reflexivity.
    + now rewrite <- app_assoc.
Qed.

Lemma fold_visit_proto (members : list Property) (st : ObjectState) :
  plainNames members ->
  proto (st_properties (fold_left visit members st)) = proto (st_properties st).
Proof.
  revert st. induction members as [|p members IH]; intros st H; cbn [fold_left].
  - reflexivity.
  - inversion H as [|? ? Hp Hrest]; subst.
    rewrite IH by assumption. now rewrite visit_plain.
Qed.

Lemma fold_visit_get (members : list Property) (st : ObjectState) (n : string) :
  plainNames members ->
  Js.get n (own (st_properties (fold_left visit members st)))
  = match lastFragment n members with
    | Some f => Some f
    | None => Js.get n (own (st_properties st))
    end.
Proof.
  revert st. induction members as [|p members IH]; intros st H;
    cbn [fold_left lastFragment].
  - reflexivity.
  - inversion H as [|? ? Hp Hrest]; subst.
    rewrite IH by assumption.
    destruct (lastFragment n members); [reflexivity|].
    rewrite visit_plain by assumption. cbn [own].
    rewrite get_put. destruct (String.eqb n (name p)); reflexivity.
Qed.

Lemma fold_visit_NoDup (members : list Property) (st : ObjectState) :
  plainNames members ->
  NoDup (map fst (own (st_properties st))) ->
  NoDup (map fst (own (st_properties (fold_left visit members st)))).
Proof.
  revert st. induction members as [|p members IH]; intros st H Hnd;
    cbn [fold_left].
  - exact Hnd.
  - inversion H as [|? ? Hp Hrest]; subst.
    apply IH; [assumption|].
    rewrite visit_plain by assumption. cbn [own]. now apply NoDup_put.
Qed.

Lemma fold_visit_keys (members : list Property) (st : ObjectState) :
  plainNames members -> noIndexNames members ->
  map fst (own (st_properties (fold_left visit members st)))
  = (map fst (own (st_properties st))
     ++ filter (fun m => negb (mem m (map fst (own (st_properties st)))))
          (firstOccurrences (map name members)))%list.
Proof.
  revert st. induction members as [|p members IH]; intros st H Hi;
    cbn [fold_left map firstOccurrences filter].
  - now rewrite app_nil_r.
  - inversion H as [|? ? Hp Hrest]; subst.
    inversion Hi as [|? ? Hip Hirest]; subst.
    rewrite IH by assumption.
    rewrite visit_plain by assumption. cbn [own].
    rewrite keys_put by assumption.
    destruct (mem (name p) (map fst (own (st_properties st)))) eqn:E;
      cbn [negb].
    + now rewrite filter_absorb.
    + rewrite filter_snoc, <- app_assoc. reflexivity.
Qed.

Lemma fold_visit_distinct (members : list Property) (st : ObjectState) :
  plainNames members -> noIndexNames members ->
  NoDup (map fst (own (st_properties st)) ++ map name members) ->
  own (st_properties (fold_left visit members st))
  = (own (st_properties st) ++ map entry members)%list.
Proof.
  revert st. induction members as [|p members IH]; intros st H Hi Hnd;
    cbn [fold_left map].
  - now rewrite app_nil_r.
  - inversion H as [|? ? Hp Hrest]; subst.
    inversion Hi as [|? ? Hip Hirest]; subst.
    cbn [map] in Hnd.
    assert (Hfresh : mem (name p) (map fst (own (st_properties st))) = false).
    { destruct (mem (name p) (map fst (own (st_properties st)))) eqn:E;
        [|reflexivity].
      apply mem_In in E. apply NoDup_remove_2 in Hnd.
      exfalso. apply Hnd. apply in_or_app. now left. }
    assert (Hstep : own (st_properties (visit st p))
                    = (own (st_properties st) ++ [entry p])%list).
    { rewrite visit_plain by assumption. cbn [own].
      now rewrite put_fresh. }
    rewrite IH; [|assumption|assumption|].
    + rewrite Hstep, <- app_assoc. reflexivity.
    + rewrite Hstep, map_app. cbn [map entry fst].
      rewrite <- app_assoc. exact Hnd.
Qed.

Lemma listedFrom_insertIndex {V : Type} (i : N) (k : string) (v : V)
    (o : list (string * V)) (bound : N) :
  Js.arrayIndex k = Some i -> (bound <= i)%N ->
  listedFrom bound (map fst o) = true ->
  listedFrom bound (map fst (Js.insertIndex i k v o)) = true.
Proof.
  intros Hk. revert bound.
  induction o as [|[k0 v0] rest IH]; intros bound Hb;
    cbn [Js.insertIndex map fst listedFrom].
  - intros _. rewrite Hk. cbn [listedFrom].
    rewrite andb_true_r. now apply N.leb_le.
  - destruct (Js.arrayIndex k0) as [j|] eqn:Ej.
    + intros H. apply andb_true_iff in H. destruct H as [Hj Hrest].
      destruct (N.ltb_spec i j) as [Hlt|Hge]; cbn [map fst listedFrom].
      * rewrite Hk, Ej, Hrest.
        assert (E1 : (bound <=? i)%N = true) by now apply N.leb_le.
        assert (E2 : (i <=? j)%N = true) by (apply N.leb_le; lia).
        now rewrite E1, E2.
      * rewrite Ej, Hj. cbn [andb]. now apply IH.
    + intros H. cbn [map fst listedFrom]. rewrite Hk, Ej, H.
      rewrite andb_true_r. now apply N.leb_le.
Qed.

Lemma plainKeys_append (ks : list string) (k : string) :
  Js.arrayIndex k = None -> plainKeys ks = true -> plainKeys (ks ++ [k]) = true.
Proof.
  intros Hk H. unfold plainKeys in *. rewrite forallb_app, H.
  cbn [forallb]. now rewrite Hk.
Qed.

Lemma listedFrom_append (ks : list string) (k : string) (bound : N) :
  Js.arrayIndex k = None ->
  listedFrom bound ks = true -> listedFrom bound (ks ++ [k]) = true.
Proof.
  intros Hk. revert bound.
  induction ks as [|k0 rest IH]; intros bound; cbn [app listedFrom].
  - intros _. now rewrite Hk.
  - destruct (Js.arrayIndex k0) as [j|].
    + intros H. apply andb_true_iff in H. destruct H as [Hj Hrest].
      rewrite Hj. cbn [andb]. now apply IH.
    + now apply plainKeys_append.
Qed.

(** An assignment keeps the keys listed as an object lists them. *)
Lemma listedFrom_put {V : Type} (k : string) (v : V) (o : list (string * V)) :
  listedFrom 0 (map fst o) = true ->
  listedFrom 0 (map fst (Js.put k v o)) = true.
Proof.
  intros H. unfold Js.put. destruct (Js.has k o).
  - now rewrite keys_replace.
  - destruct (Js.arrayIndex k) as [i|] eqn:Hk.
    + apply listedFrom_insertIndex; [assumption | lia | assumption].
    + rewrite map_app. cbn [map fst]. now apply listedFrom_append.
Qed.

(** The keys of the dictionary [buildObject] fills are always listed as an
    object lists them, whatever the names of the members. *)
Lemma fold_visit_listed (members : list Property) (st : ObjectState) :
  listedFrom 0 (map fst (own (st_properties st))) = true ->
  listedFrom 0 (map fst (own (st_properties (fold_left visit members st))))
  = true.
Proof.
  revert st. induction members as [|p members IH]; intros st H; cbn [fold_left].
  - exact H.
  - apply IH. unfold visit, assign. cbn [st_properties].
    destruct (String.eqb (name p) "__proto__").
    + destruct (resolvedType p); cbn [own]; exact H.
    + cbn [own]. now apply listedFrom_put.
Qed.

Lemma buildObject_shape (members : list Property) :
  buildObject members
  = Complex
      {| additionalProperties := Some false;
         allOf := None; description := None; enum := None; items := None;
         properties :=
           Some (st_properties
                   (fold_left visit members (mkObjectState (mkDict None []) [])));
         required :=
           match requiredNames members with
           | [] => None
           | _ :: _ => Some (requiredNames members)
           end;
         type := Some "object" |}.
Proof.
  unfold buildObject. rewrite fold_visit_required. cbn [st_required app].
  destruct (requiredNames members); reflexivity.
Qed.

(** The key [__proto__] is not stored: the fragment of a member of that name
    becomes the prototype of [properties], which keeps no entry for it, while
    the name is still listed in [required]. *)
Example buildObject_proto_key :
  buildObject [mkProperty false "__proto__" stringFragment]
  = Complex
      {| additionalProperties := Some false;
         allOf := None; description := None; enum := None; items := None;
         properties := Some (mkDict (Some stringFragment) []);
         required := Some ["__proto__"];
         type := Some "object" |}.
Proof. reflexivity. Qed.

(** A name that is an array index goes before the other keys, wherever its
    member stands. *)
Example buildObject_index_key :
  buildObject membersB1
  = Complex
      {| additionalProperties := Some false;
         allOf := None; description := None; enum := None; items := None;
         properties :=
           Some (mkDict None [("1", numberFragment); ("b", stringFragment)]);
         required := Some ["b"];
         type := Some "object" |}.
Proof. reflexivity. Qed.

(** C4, as the code has it.  For every sequence of members, [buildObject]
    returns a fragment of type [object] with [additionalProperties] false,
    whose [required] is the list of the names of the members that are not
    optional, in input order, and is absent when there is no such member.
    When no member is called [__proto__], [properties] has exactly one entry
    for each distinct name, holding the fragment of the last member of that
    name.  When moreover no name is an array index, the keys are in the order
    of first occurrence; so when the names are also pairwise distinct,
    [properties] holds every member's fragment under its name in input
    order. *)
Theorem buildObject_spec (members : list Property) :
  exists dict : Dict,
    buildObject members
    = Complex
        {| additionalProperties := Some false;
           allOf := None; description := None; enum := None; items := None;
           properties := Some dict;
           required :=
             match requiredNames members with
             | [] => None
             | _ :: _ => Some (requiredNames members)
             end;
           type := Some "object" |}
    /\ (plainNames members ->
        proto dict = None
        /\ NoDup (map fst (own dict))
        /\ (forall n, Js.get n (own dict) = lastFragment n members)
        /\ (noIndexNames members ->
            map fst (own dict) = firstOccurrences (map name members)
            /\ (NoDup (map name members) -> own dict = map entry members))).
Proof.
  eexists. split; [apply buildObject_shape|].
  intros Hplain. split; [|split; [|split]].
  - now rewrite fold_visit_proto.
  - apply fold_visit_NoDup; [assumption | constructor].
  - intros n. rewrite fold_visit_get by assumption.
    destruct (lastFragment n members); reflexivity.
  - intros Hindex. split.
    + rewrite fold_visit_keys by assumption. cbn [st_properties own map app].
      apply filter_mem_nil.
    + intros Hnd. now rewrite fold_visit_distinct.
Qed.

(** The object [{a: string, b?: number}] of the specification: both members
    are in [properties], in order, and only [a] is required. *)
Lemma buildObject_spec_witness :
  exists dict : Dict,
    buildObject membersAB
    = Complex
        {| additionalProperties := Some false;
           allOf := None; description := None; enum := None; items := None;
           properties := Some dict;
           required := Some ["a"];
           type := Some "object" |}
    /\ own dict = [("a", stringFragment); ("b", numberFragment)].
Proof.
  destruct (buildObject_spec membersAB) as (dict & Hshape & Hprops).
  exists dict. split; [exact Hshape|].
  assert (Hplain : plainNames membersAB).
  { repeat constructor; cbn; discriminate. }
  assert (Hindex : noIndexNames membersAB).
  { repeat constructor. }
  destruct (Hprops Hplain) as (_ & _ & _ & Hord).
  destruct (Hord Hindex) as (_ & Hall).
  apply Hall. repeat constructor; cbn; intuition discriminate.
Defined.

(** C4, as the claim states it, fails: of two required members called [a],
    [properties] keeps the second fragment only, and the fragment of the
    first is under no name. *)
Lemma buildObject_duplicate_drops_fragment :
  exists (c : JsonSchemaComplex) (dict : Dict),
    buildObject membersAA = Complex c
    /\ properties c = Some dict
    /\ own dict = [("a", numberFragment)]
    /\ own dict <> map entry membersAA
    /\ Js.get "a" (own dict) <> Some stringFragment.
Proof.
  eexists. eexists. split; [reflexivity|]. split; [reflexivity|].
  split; [reflexivity|]. split; cbn; discriminate.
Qed.

(** C10.  [buildObject] does not deduplicate names: on two required members
    of the same name, [required] holds the name twice while [properties] has
    a single entry for it, with the fragment of the second member. *)
Theorem buildObject_no_deduplication :
  (exists (n : string) (f1 f2 : JsonSchema) (c : JsonSchemaComplex)
          (dict : Dict),
      f1 <> f2
      /\ buildObject [mkProperty false n f1; mkProperty false n f2] = Complex c
      /\ required c = Some [n; n]
      /\ properties c = Some dict
      /\ own dict = [(n, f2)])
  /\ (forall (n : string) (f1 f2 : JsonSchema),
         n <> "__proto__" ->
         exists (c : JsonSchemaComplex) (dict : Dict),
           buildObject [mkProperty false n f1; mkProperty false n f2] = Complex c
           /\ required c = Some [n; n]
           /\ properties c = Some dict
           /\ own dict = [(n, f2)]).
Proof.
  split.
  - exists "a", stringFragment, numberFragment. eexists. eexists.
    split; [discriminate|]. repeat split; reflexivity.
  - intros n f1 f2 Hn. eexists. eexists.
    split; [apply buildObject_shape|].
    split; [reflexivity|]. split; [reflexivity|].
    cbn [fold_left]. rewrite !visit_plain by assumption.
    cbn [own st_properties name resolvedType].
    apply put_twice.
Qed.

(** The two members called [a] of the example. *)
Lemma buildObject_no_deduplication_witness :
  exists (c : JsonSchemaComplex) (dict : Dict),
    buildObject membersAA = Complex c
    /\ required c = Some ["a"; "a"]
    /\ properties c = Some dict
    /\ own dict = [("a", numberFragment)].
Proof.
  apply (proj2 buildObject_no_deduplication "a" stringFragment numberFragment).
  discriminate.
Defined.

End Objects.

(* ================================================================= *)
(** ** Further properties of the classifier *)

Section ClassifierFurther.
Import JsonSchemaModule.

(** Rewrites every test [Boolean(z & F)] of the goal, [F] a flag of the
    compiler API, into the bit it reads. *)
Ltac flag_bits :=
  repeat match goal with
         | |- context [Js.Boolean (Js.band ?z ?F)] =>
             let n := eval vm_compute in (Z.log2 F) in
             change F with (2 ^ n);
             rewrite (Boolean_band_bit z n) by lia
         end.

Lemma isPrimitive_anyBit (t : TsType) :
  Types.isPrimitive t = anyBit (flags t) primitiveBits.
Proof.
  unfold Types.isPrimitive, anyBit, primitiveBits. cbn [existsb].
  rewrite !Boolean_or. flag_bits.
  rewrite orb_false_r, !orb_assoc. reflexivity.
Qed.

Lemma isLiteral_anyBit (t : TsType) :
  Types.isLiteral t = anyBit (flags t) literalBits.
Proof.
  unfold Types.isLiteral, anyBit, literalBits. cbn [existsb].
  rewrite !Boolean_or. flag_bits.
  rewrite orb_false_r, !orb_assoc. reflexivity.
Qed.

(** X1.  [isPrimitive] answers true exactly when one of the nine flags Any,
    String, Number, BigInt, Boolean, Void, Undefined, Null, Never is set in
    the flag word: the chain of [||] over the nine masked words is the
    disjunction of nine bit tests, and no other bit of the word matters. *)
Theorem isPrimitive_bits (t : TsType) :
  Types.isPrimitive t = anyBit (flags t) primitiveBits.
Proof. apply isPrimitive_anyBit. Qed.

(** X2.  A node that [isDefined] rejects is a primitive for [isPrimitive]:
    what the filter on defined constituents removes is never an object, a
    literal-only or a union-only node. *)
Theorem undefined_isPrimitive (t : TsType) :
  Types.isDefined t = false -> Types.isPrimitive t = true.
Proof.
  intros H. rewrite isPrimitive_anyBit.
  assert (Hu : Types.isUndefined t = true).
  { unfold Types.isDefined in H. unfold Types.isUndefined.
    now destruct (Js.Boolean (Js.band (flags t) TypeFlags.Undefined)). }
  rewrite isUndefined_bit in Hu.
  unfold anyBit, primitiveBits. cbn [existsb]. rewrite Hu.
  now rewrite !orb_true_r.
Qed.

Lemma undefined_isPrimitive_witness :
  Types.isDefined undefinedNode = false
  /\ Types.isPrimitive undefinedNode = true.
Proof.
  split; [reflexivity|].
  apply (undefined_isPrimitive undefinedNode). reflexivity.
Defined.

Lemma testbit_toggle (a n m : Z) :
  0 <= n -> 0 <= m ->
  Z.testbit (Z.lxor a (2 ^ n)) m = xorb (Z.testbit a m) (n =? m).
Proof.
  intros Hn Hm. now rewrite Z.lxor_spec, Z.pow2_bits_eqb.
Qed.

(** X3.  [isLiteral] reads the StringLiteral, NumberLiteral and
    BooleanLiteral flags only and [isBigIntLiteral] the BigIntLiteral flag
    only: toggling the BigIntLiteral flag of a node flips [isBigIntLiteral]
    and leaves [isLiteral] unchanged, so a big-integer literal is a literal
    for [isLiteral] only through another flag. *)
Theorem isLiteral_ignores_BigIntLiteral (t : TsType) :
  Types.isLiteral t = anyBit (flags t) literalBits
  /\ Types.isLiteral (withFlags t (Z.lxor (flags t) TypeFlags.BigIntLiteral))
     = Types.isLiteral t
  /\ Types.isBigIntLiteral
       (withFlags t (Z.lxor (flags t) TypeFlags.BigIntLiteral))
     = negb (Types.isBigIntLiteral t).
Proof.
  split; [apply isLiteral_anyBit|]. split.
  - rewrite !isLiteral_anyBit. unfold anyBit, literalBits.
    cbn [existsb withFlags flags].
    change TypeFlags.BigIntLiteral with (2 ^ 11).
    rewrite !testbit_toggle by lia. cbn [Z.eqb Pos.eqb].
    now rewrite !xorb_false_r.
  - unfold Types.isBigIntLiteral. cbn [withFlags flags]. flag_bits.
    change TypeFlags.BigIntLiteral with (2 ^ 11).
    rewrite testbit_toggle by lia. cbn [Z.eqb Pos.eqb].
    now destruct (Z.testbit (flags t) 11).
Qed.

(** X4.  [isUnionBoolean] does not depend on the order of the pair. *)
Theorem isUnionBoolean_sym (a b : TsType) :
  Types.isUnionBoolean [a; b] = Types.isUnionBoolean [b; a].
Proof.
  unfold Types.isUnionBoolean. cbn [List.length Nat.eqb negb].
  rewrite (orb_comm (negb (Types.isLiteral a))).
  destruct (negb (Types.isLiteral b) || negb (Types.isLiteral a));
    [reflexivity | apply orb_comm].
Qed.

Lemma not_true_and_false (n : option string) :
  Types.strict_eq_string n "true" && Types.strict_eq_string n "false" = false.
Proof.
  destruct n as [s|]; [|reflexivity]. cbn.
  destruct (String.eqb_spec s "true") as [->|]; reflexivity.
Qed.

(** X5.  [isUnionBoolean] rejects every pair whose two nodes carry the same
    internal name tag, in particular a node paired with itself: one tag
    cannot be both [true] and [false]. *)
Theorem isUnionBoolean_same_tag (a b : TsType) :
  intrinsicName a = intrinsicName b -> Types.isUnionBoolean [a; b] = false.
Proof.
  intros E. unfold Types.isUnionBoolean. cbn [List.length Nat.eqb negb].
  destruct (negb (Types.isLiteral a) || negb (Types.isLiteral b));
    [reflexivity|].
  unfold Types.isLiteralTrue, Types.isLiteralFalse. rewrite E.
  pose proof (not_true_and_false (intrinsicName b)) as H.
  destruct (Types.strict_eq_string (intrinsicName b) "true"),
    (Types.strict_eq_string (intrinsicName b) "false");
    try discriminate H;
    destruct (Types.is_undefined (value a)), (Types.is_undefined (value b));
    reflexivity.
Qed.

Lemma isUnionBoolean_same_tag_witness :
  Types.isUnionBoolean [trueLiteral; trueLiteral] = false.
Proof.
  apply (isUnionBoolean_same_tag trueLiteral trueLiteral). reflexivity.
Defined.

Lemma objectReference_guard (t : TsType) :
  Types.isObject t && Types.isReference t = true <-> objectReference t.
Proof.
  unfold Types.isObject, Types.isReference, objectReference.
  now rewrite andb_true_iff, !Boolean_true.
Qed.

(** X6.  [isTuple] throws exactly on an object reference that has no
    [target]; on a node that is not an object reference it returns false
    without reading [target], and on a node with a [target] it always
    returns. *)
Theorem isTuple_throws_iff (t : TsType) :
  ((exists e, Types.isTuple t = Js.Throw e)
   <-> objectReference t /\ target t = None)
  /\ (~ objectReference t -> Types.isTuple t = Js.Return false)
  /\ (target t <> None -> exists b, Types.isTuple t = Js.Return b).
Proof.
  pose proof (objectReference_guard t) as G.
  unfold Types.isTuple.
  destruct (Types.isObject t && Types.isReference t).
  - assert (R : objectReference t) by now apply G.
    destruct (target t) as [tg|].
    + split; [|split].
      * split; [intros [e H]; discriminate | intros [_ H]; discriminate].
      * intros H. contradiction.
      * intros _. eexists. reflexivity.
    + split; [|split].
      * split; [intros _; auto | intros _; eexists; reflexivity].
      * intros H. contradiction.
      * intros H. congruence.
  - assert (R : ~ objectReference t).
    { intros H. apply G in H. discriminate. }
    split; [|split].
    + split; [intros [e H]; discriminate | intros [H _]; contradiction].
    + reflexivity.
    + intros _. eexists. reflexivity.
Qed.

(** An object reference without target makes [isTuple] throw, while
    [isArray] answers false on it. *)
Lemma isTuple_throws_iff_witness :
  (exists e, Types.isTuple danglingReference = Js.Throw e)
  /\ Types.isArray danglingReference = false.
Proof.
  split; [|reflexivity].
  apply (proj1 (isTuple_throws_iff danglingReference)).
  split; [split; vm_compute; discriminate | reflexivity].
Defined.

(** X7.  [isFunctionLike] answers true exactly for a node that has a symbol
    whose flags have the Function flag (bit 4) or the Method flag (bit 13);
    a node without a symbol is never function-like. *)
Theorem isFunctionLike_iff (t : TsType) :
  (Types.isFunctionLike t = true <->
   exists s, symbol t = Some s
             /\ (Z.testbit (symbol_flags s) 4 = true
                 \/ Z.testbit (symbol_flags s) 13 = true))
  /\ (symbol t = None -> Types.isFunctionLike t = false).
Proof.
  unfold Types.isFunctionLike. destruct (symbol t) as [s|].
  - split; [|discriminate].
    rewrite Boolean_or. flag_bits. rewrite orb_true_iff. split.
    + intros H. exists s. auto.
    + intros (s' & E & H). injection E as <-. exact H.
  - split; [|reflexivity].
    split; [discriminate | intros (s & E & _); discriminate].
Qed.

(** X8.  Each of [isOptional], [isPrototype] and [isGetAccessor] reads one
    bit of the symbol's flags (24, 22 and 15) and nothing else of the symbol,
    so the three answers are independent of one another and of the name. *)
Theorem symbol_predicates_bits (s : Symbol) :
  Types.isOptional s = Z.testbit (symbol_flags s) 24
  /\ Types.isPrototype s = Z.testbit (symbol_flags s) 22
  /\ Types.isGetAccessor s = Z.testbit (symbol_flags s) 15.
Proof.
  unfold Types.isOptional, Types.isPrototype, Types.isGetAccessor.
  flag_bits. auto.
Qed.

Lemma kind_eqb_eq (a b : SyntaxKind) : kind_eqb a b = true <-> a = b.
Proof.
  destruct a, b; cbn; try (split; [discriminate | intros H; discriminate H]);
    try (split; reflexivity).
  rewrite Z.eqb_eq. split; congruence.
Qed.

(** X9.  [hasModifier] answers true exactly when the node has a [modifiers]
    array and one of its elements is of the target kind.  A node without the
    array has no modifier of any kind, and neither has a node with an empty
    array, although [hasModifiers] answers true for it. *)
Theorem hasModifier_iff (node : ModifiedNode) (target : SyntaxKind) :
  (Types.hasModifier node target = true <->
   exists ms m, modifiers node = Some ms /\ In m ms /\ kind m = target)
  /\ (modifiers node = None -> Types.hasModifier node target = false)
  /\ (modifiers node = Some [] ->
      Types.hasModifiers node = true
      /\ Types.hasModifier node target = false).
Proof.
  unfold Types.hasModifier, Types.hasModifiers.
  destruct (modifiers node) as [ms|]; cbn [andb].
  - split; [|split].
    + rewrite existsb_exists. split.
      * intros (m & Hin & E). apply kind_eqb_eq in E. exists ms, m. auto.
      * intros (ms' & m & E & Hin & Hk). injection E as <-.
        exists m. split; [exact Hin | now apply kind_eqb_eq].
    + discriminate.
    + intros E. injection E as ->. split; reflexivity.
  - split; [|split].
    + split; [discriminate | intros (ms & m & E & _); discriminate].
    + reflexivity.
    + discriminate.
Qed.

(** A class declaration with two modifiers has a modifier of the kind of
    the second; a declaration with an empty array has none. *)
Lemma hasModifier_iff_witness :
  Types.hasModifier
    (mkModifiedNode ClassDeclaration
       (Some [mkNode (OtherKind 89); mkNode (OtherKind 122)]))
    (OtherKind 122) = true
  /\ Types.hasModifier (mkModifiedNode ClassDeclaration (Some []))
       (OtherKind 122) = false.
Proof.
  split.
  - apply (proj1 (hasModifier_iff _ _)).
    exists [mkNode (OtherKind 89); mkNode (OtherKind 122)], (mkNode (OtherKind 122)).
    split; [reflexivity|]. split; [simpl; auto | reflexivity].
  - apply (proj2 (proj2 (hasModifier_iff
             (mkModifiedNode ClassDeclaration (Some [])) (OtherKind 122)))).
    reflexivity.
Defined.

(** X10.  Each of [isObject], [isUnion], [isIntersection], [isGenericType]
    and [isBigIntLiteral] reads one bit of the flag word (19, 20, 21, 18 and
    11) and nothing else of the node. *)
Theorem type_predicates_bits (t : TsType) :
  Types.isObject t = Z.testbit (flags t) 19
  /\ Types.isUnion t = Z.testbit (flags t) 20
  /\ Types.isIntersection t = Z.testbit (flags t) 21
  /\ Types.isGenericType t = Z.testbit (flags t) 18
  /\ Types.isBigIntLiteral t = Z.testbit (flags t) 11.
Proof.
  unfold Types.isObject, Types.isUnion, Types.isIntersection,
    Types.isGenericType, Types.isBigIntLiteral.
  flag_bits. repeat split.
Qed.

End ClassifierFurther.

(* ================================================================= *)
(** ** Further properties of the schema builder *)

Section BuilderFurther.
Import JsonSchemaModule.

(** X11.  On the mapped tags [buildPrimitive] separates every two tags
    except [void] and [undefined], which give the same fragment. *)
Theorem buildPrimitive_collisions (tag1 tag2 : string) :
  In tag1 mappedKinds -> In tag2 mappedKinds ->
  buildPrimitive tag1 = buildPrimitive tag2 ->
  tag1 = tag2
  \/ (tag1 = "void" /\ tag2 = "undefined")
  \/ (tag1 = "undefined" /\ tag2 = "void").
Proof.
  intros H1 H2. simpl in H1, H2.
  repeat (destruct H1 as [<-|H1]); try contradiction;
    repeat (destruct H2 as [<-|H2]); try contradiction;
    intros E;
    first [ left; reflexivity
          | right; left; split; reflexivity
          | right; right; split; reflexivity
          | vm_compute in E; discriminate E ].
Qed.

Lemma buildPrimitive_collisions_witness :
  buildPrimitive "void" = buildPrimitive "undefined"
  /\ ("void" = "undefined"
      \/ ("void" = "void" /\ "undefined" = "undefined")
      \/ ("void" = "undefined" /\ "undefined" = "void")).
Proof.
  split; [reflexivity|].
  apply (buildPrimitive_collisions "void" "undefined");
    [simpl; tauto | simpl; tauto | reflexivity].
Defined.

(** X12.  The fragments of [buildArray], [buildTuple] and [buildObject] are
    never confused: an array fragment determines its element fragment, a
    tuple fragment its sequence of element fragments (the empty tuple
    included), no array fragment is a tuple fragment, and no object fragment
    is an array or a tuple fragment. *)
Theorem builders_apart :
  (forall f g, buildArray f = buildArray g -> f = g)
  /\ (forall l l', buildTuple l = buildTuple l' -> l = l')
  /\ (forall f l, buildArray f <> buildTuple l)
  /\ (forall members f, buildObject members <> buildArray f)
  /\ (forall members l, buildObject members <> buildTuple l).
Proof.
  split; [|split; [|split; [|split]]].
  - intros f g H. now injection H.
  - intros l l' H. now injection H.
  - intros f l H. discriminate H.
  - intros members f H. unfold buildObject, buildArray in H. discriminate H.
  - intros members l H. unfold buildObject, buildTuple in H. discriminate H.
Qed.

Lemma fold_visit_entries (members : list Property) (st : ObjectState) :
  st_properties (fold_left visit members st)
  = fold_left (fun dict e => assign dict (fst e) (snd e))
      (map entry members) (st_properties st).
Proof.
  revert st. induction members as [|p members IH]; intros st; cbn [fold_left map].
  - reflexivity.
  - rewrite IH. reflexivity.
Qed.

Lemma requiredNames_requirement (members : list Property) :
  requiredNames members
  = map snd (filter (fun r => negb (fst r)) (map requirement members)).
Proof.
  unfold requiredNames.
  induction members as [|p members IH]; cbn [map filter requirement fst];
    [reflexivity|].
  destruct (isOptional p); cbn [negb map snd]; now rewrite IH.
Qed.

Lemma propertiesOf_buildObject (members : list Property) :
  propertiesOf (buildObject members)
  = Some (st_properties
            (fold_left visit members (mkObjectState (mkDict None []) []))).
Proof. now rewrite buildObject_shape. Qed.

Lemma requiredOf_buildObject (members : list Property) :
  requiredOf (buildObject members) = requiredNames members.
Proof.
  rewrite buildObject_shape. cbn [requiredOf required].
  destruct (requiredNames members); reflexivity.
Qed.

Lemma lookupProperty_lastFragment (members : list Property) (n : string) :
  plainNames members ->
  lookupProperty n (buildObject members) = lastFragment n members.
Proof.
  intros H. unfold lookupProperty. rewrite propertiesOf_buildObject.
  rewrite fold_visit_get by assumption.
  destruct (lastFragment n members); reflexivity.
Qed.

Lemma lastFragment_None_iff (n : string) (members : list Property) :
  lastFragment n members = None <-> ~ In n (map name members).
Proof.
  induction members as [|p members IH]; cbn [lastFragment map In].
  - tauto.
  - destruct (lastFragment n members) as [f|].
    + split; [discriminate|]. intros H. exfalso. apply H. right.
      destruct (in_dec string_dec n (map name members)) as [Hin|Hout];
        [exact Hin|].
      apply IH in Hout. discriminate.
    + destruct (String.eqb_spec n (name p)) as [->|Hne].
      * split; [discriminate | intros H; exfalso; apply H; now left].
      * split; [|reflexivity]. intros _ [E|Hin]; [congruence|].
        apply (proj1 IH); [reflexivity | exact Hin].
Qed.

Lemma lastFragment_app (n : string) (before after : list Property) :
  lastFragment n (before ++ after)
  = match lastFragment n after with
    | Some f => Some f
    | None => lastFragment n before
    end.
Proof.
  induction before as [|p before IH]; cbn [app lastFragment].
  - destruct (lastFragment n after); reflexivity.
  - rewrite IH. destruct (lastFragment n after); reflexivity.
Qed.

Lemma lastFragment_In (members : list Property) (p : Property) :
  NoDup (map name members) -> In p members ->
  lastFragment (name p) members = Some (resolvedType p).
Proof.
  induction members as [|q members IH]; cbn [map In lastFragment];
    intros Hnd Hin; [contradiction|].
  inversion Hnd as [|? ? Hout Hrest]; subst.
  destruct Hin as [->|Hin].
  - apply lastFragment_None_iff in Hout. rewrite Hout.
    now rewrite String.eqb_refl.
  - now rewrite (IH Hrest Hin).
Qed.

Lemma filter_Permutation {A : Type} (f : A -> bool) (l l' : list A) :
  Permutation l l' -> Permutation (filter f l) (filter f l').
Proof.
  induction 1 as [|x l l' _ IH|x y l|l l' l'' _ IH1 _ IH2]; cbn [filter].
  - constructor.
  - destruct (f x); [now constructor | exact IH].
  - destruct (f x), (f y); try reflexivity. constructor.
  - now transitivity (filter f l').
Qed.

(** X13.  In [buildObject] the optional flags never reach [properties] and
    the fragments never reach [required]: two member sequences with the same
    names and fragments give the same [properties], and two with the same
    names and flags the same [required]. *)
Theorem buildObject_independence (members members' : list Property) :
  (map entry members = map entry members' ->
   propertiesOf (buildObject members) = propertiesOf (buildObject members'))
  /\ (map requirement members = map requirement members' ->
      requiredOf (buildObject members) = requiredOf (buildObject members')).
Proof.
  split; intros E.
  - rewrite !propertiesOf_buildObject, !fold_visit_entries. now rewrite E.
  - rewrite !requiredOf_buildObject, !requiredNames_requirement. now rewrite E.
Qed.

(** [{a: string, b?: number}] and [{a?: string, b: number}] have the same
    [properties]. *)
Lemma buildObject_independence_witness :
  propertiesOf (buildObject membersAB) = propertiesOf (buildObject membersAB')
  /\ requiredOf (buildObject membersAB) <> requiredOf (buildObject membersAB').
Proof.
  split.
  - apply (proj1 (buildObject_independence membersAB membersAB')). reflexivity.
  - discriminate.
Defined.

(** X14.  When no member is called [__proto__], every name that
    [buildObject] lists in [required] is a key of [properties]. *)
Theorem buildObject_required_in_properties
    (members : list Property) (n : string) :
  plainNames members ->
  In n (requiredOf (buildObject members)) ->
  exists f, lookupProperty n (buildObject members) = Some f.
Proof.
  intros Hplain Hin. rewrite lookupProperty_lastFragment by assumption.
  rewrite requiredOf_buildObject in Hin.
  destruct (lastFragment n members) as [f|] eqn:E; [now exists f|].
  apply lastFragment_None_iff in E. exfalso. apply E.
  unfold requiredNames in Hin. apply in_map_iff in Hin.
  destruct Hin as (p & <- & Hp). apply filter_In in Hp.
  apply in_map. tauto.
Qed.

Lemma buildObject_required_in_properties_witness :
  exists f, lookupProperty "a" (buildObject membersAB) = Some f.
Proof.
  apply (buildObject_required_in_properties membersAB "a").
  - repeat constructor; cbn; discriminate.
  - cbn. auto.
Defined.

(** X15.  When no member is called [__proto__], [properties] has no entry
    under a name exactly when no member has that name. *)
Theorem buildObject_missing_key (members : list Property) (n : string) :
  plainNames members ->
  (lookupProperty n (buildObject members) = None
   <-> ~ In n (map name members)).
Proof.
  intros Hplain. rewrite lookupProperty_lastFragment by assumption.
  apply lastFragment_None_iff.
Qed.

Lemma buildObject_missing_key_witness :
  lookupProperty "c" (buildObject membersAB) = None.
Proof.
  apply (buildObject_missing_key membersAB "c").
  - repeat constructor; cbn; discriminate.
  - cbn. intuition discriminate.
Defined.

(** X16.  When no member is called [__proto__], the entry of [properties]
    under a name is the fragment of the last member of that name: a member
    that no later member shadows is found under its name, whatever precedes
    it. *)
Theorem buildObject_last_wins
    (before after : list Property) (p : Property) :
  plainNames (before ++ p :: after) ->
  ~ In (name p) (map name after) ->
  lookupProperty (name p) (buildObject (before ++ p :: after))
  = Some (resolvedType p).
Proof.
  intros Hplain Hout. rewrite lookupProperty_lastFragment by assumption.
  rewrite lastFragment_app. cbn [lastFragment].
  apply lastFragment_None_iff in Hout. rewrite Hout.
  now rewrite String.eqb_refl.
Qed.

Lemma buildObject_last_wins_witness :
  lookupProperty "a" (buildObject membersAA) = Some numberFragment.
Proof.
  apply (buildObject_last_wins
           [mkProperty false "a" stringFragment]
           [] (mkProperty false "a" numberFragment)).
  - repeat constructor; cbn; discriminate.
  - cbn. tauto.
Defined.

(** X17.  When the names are pairwise distinct and none is [__proto__], the
    order of the members matters for the order of the keys only: a
    permutation of the members gives the same entry under every name, and a
    [required] list that is a permutation of the original one. *)
Theorem buildObject_permutation (members members' : list Property) :
  plainNames members -> NoDup (map name members) ->
  Permutation members members' ->
  (forall n, lookupProperty n (buildObject members)
             = lookupProperty n (buildObject members'))
  /\ Permutation (requiredOf (buildObject members))
                 (requiredOf (buildObject members')).
Proof.
  intros Hplain Hnd Hperm.
  assert (Hplain' : plainNames members').
  { unfold plainNames in *. now rewrite <- Hperm. }
  assert (Hnd' : NoDup (map name members')).
  { apply (Permutation_NoDup (l := map name members)); [|exact Hnd].
    now apply Permutation_map. }
  split.
  - intros n. rewrite !lookupProperty_lastFragment by assumption.
    destruct (in_dec string_dec n (map name members)) as [Hin|Hout].
    + apply in_map_iff in Hin. destruct Hin as (p & <- & Hp).
      rewrite (lastFragment_In members p Hnd Hp).
      symmetry. apply lastFragment_In; [exact Hnd'|].
      now apply (Permutation_in (l := members)).
    + assert (Hout' : ~ In n (map name members')).
      { intros H. apply Hout.
        apply (Permutation_in (l := map name members')); [|exact H].
        apply Permutation_map. now symmetry. }
      apply lastFragment_None_iff in Hout, Hout'. congruence.
  - rewrite !requiredOf_buildObject. unfold requiredNames.
    apply Permutation_map. now apply filter_Permutation.
Qed.

Lemma buildObject_permutation_witness :
  (forall n, lookupProperty n (buildObject membersAB)
             = lookupProperty n (buildObject (rev membersAB)))
  /\ Permutation (requiredOf (buildObject membersAB))
                 (requiredOf (buildObject (rev membersAB))).
Proof.
  apply (buildObject_permutation membersAB (rev membersAB)).
  - repeat constructor; cbn; discriminate.
  - repeat constructor; cbn; intuition discriminate.
  - apply Permutation_rev.
Defined.

Lemma fold_visit_no_proto_key (members : list Property) (st : ObjectState) :
  Js.get "__proto__" (own (st_properties st)) = None ->
  Js.get "__proto__" (own (st_properties (fold_left visit members st))) = None.
Proof.
  revert st. induction members as [|p members IH]; intros st H; cbn [fold_left].
  - exact H.
  - apply IH. unfold visit, assign. cbn [st_properties].
    destruct (String.eqb_spec (name p) "__proto__") as [E|Hne].
    + destruct (resolvedType p); cbn [own]; exact H.
    + cbn [own]. rewrite get_put.
      destruct (String.eqb_spec "__proto__" (name p)); [congruence | exact H].
Qed.

(** X18.  [buildObject] never creates an entry of [properties] under the key
    [__proto__]; a member of that name that is not optional is still listed
    in [required], so [required] can then name a key that [properties]
    lacks. *)
Theorem buildObject_proto_never_key :
  (forall members, lookupProperty "__proto__" (buildObject members) = None)
  /\ (forall members p,
         In p members -> name p = "__proto__" -> isOptional p = false ->
         In "__proto__" (requiredOf (buildObject members))).
Proof.
  split.
  - intros members. unfold lookupProperty. rewrite propertiesOf_buildObject.
    now apply fold_visit_no_proto_key.
  - intros members p Hin Hname Hreq. rewrite requiredOf_buildObject.
    unfold requiredNames. apply in_map_iff. exists p. split; [exact Hname|].
    apply filter_In. split; [exact Hin | now rewrite Hreq].
Qed.

Lemma buildObject_proto_never_key_witness :
  lookupProperty "__proto__"
    (buildObject [mkProperty false "__proto__" stringFragment]) = None
  /\ In "__proto__"
       (requiredOf (buildObject [mkProperty false "__proto__" stringFragment])).
Proof.
  destruct buildObject_proto_never_key as [Hkey Hreq].
  split; [apply Hkey|].
  apply (Hreq _ (mkProperty false "__proto__" stringFragment));
    [simpl; auto | reflexivity | reflexivity].
Defined.

End BuilderFurther.
